(** * Surface Microphone Analyzer: buffer, filter chain, region statistics
      and spike detection

    A shallow embedding of the core of [src/Python_programmatūra.py]
    (class [SurfaceMicrophoneAnalyzer]) together with the properties stated
    about it in the specification.

    Numeric data is modelled as the program has it:
    - ADC samples are [np.uint16] values, here integers [Z];
    - times and processed amplitudes are IEEE-754 binary64 numbers, here
      Rocq's primitive [float] (the same format as Python's [float] and
      numpy's [float64]);
    - Python integers (counters, indices) are [Z] or [nat].

    The two [deque(maxlen=...)] buffers are modelled by [deque.t], with the
    trimming rule of CPython's [collections.deque].  The analyzer's methods
    are functions from the state [Analyzer] to the state, together with what
    the method shows or raises.  Of scipy, the filter design and filtering
    routines are an interface ([scipy_signal.Filters]); [find_peaks] is
    modelled step by step. *)

From Stdlib Require Import ZArith List Bool Lia Floats Uint63.
Import ListNotations.

#[local] Set Warnings "-inexact-float".

(* ================================================================== *)
(** * Python and numpy primitives used by the analyzer                 *)
(* ================================================================== *)

(** [collections.deque] with a [maxlen]: [append] pushes on the right and,
    when the size then exceeds [maxlen], pops one element on the left;
    [extend] appends the elements of its argument one by one. *)
Module deque.

Record t (A : Type) : Type := mk { items : list A; maxlen : Z }.

Arguments mk {A} _ _.
Arguments items {A} _.
Arguments maxlen {A} _.

Definition empty {A} (n : Z) : t A := mk [] n.

Definition append {A} (d : t A) (x : A) : t A :=
  let l := items d ++ [x] in
  mk (if (maxlen d <? Z.of_nat (length l))%Z then tl l else l) (maxlen d).

Definition extend {A} (d : t A) (xs : list A) : t A :=
  fold_left append xs d.

Definition clear {A} (d : t A) : t A := mk [] (maxlen d).

Definition len {A} (d : t A) : nat := length (items d).

End deque.

(** The last [n] elements of a list (the whole list when it is shorter). *)
Definition lastn {A} (n : Z) (l : list A) : list A :=
  skipn (length l - Z.to_nat n) l.

Module np.

(** [int -> float64] conversion (exact below 2^53). *)
Definition float_of_Z (z : Z) : float := PrimFloat.of_uint63 (Uint63.of_Z z).

(** [a.astype(float)] on an array of [uint16]. *)
Definition astype_float (a : list Z) : list float := map float_of_Z a.

(** [np.arange(n)] as floats. *)
Definition arange (n : nat) : list float :=
  map (fun i => float_of_Z (Z.of_nat i)) (seq 0 n).

(** [np.sum] by left-to-right accumulation from [0.0].  (numpy adds longer
    arrays in pairwise blocks; the order of the additions is the library's
    business and no result below depends on it.) *)
Definition sum (a : list float) : float :=
  fold_left PrimFloat.add a 0%float.

(** [np.mean(a)]: the sum divided by the number of elements. *)
Definition mean (a : list float) : float :=
  (sum a / float_of_Z (Z.of_nat (length a)))%float.

(** [np.sign]: -1, 0 or 1, and nan for nan. *)
Definition sign (x : float) : float :=
  if (x <? 0)%float then (-1)%float
  else if (0 <? x)%float then 1%float
  else if (x =? 0)%float then 0%float
  else x.

(** [np.diff(a)]: [a[i+1] - a[i]]. *)
Fixpoint diff (a : list float) : list float :=
  match a with
  | x :: (y :: _) as tl => (y - x)%float :: diff tl
  | _ => []
  end.

(** [np.where(a)[0]]: the indices of the non-zero entries ([a != 0]). *)
Fixpoint where_from (i : nat) (a : list float) : list nat :=
  match a with
  | [] => []
  | x :: tl =>
      if (x =? 0)%float then where_from (S i) tl else i :: where_from (S i) tl
  end.

Definition where_ (a : list float) : list nat := where_from 0 a.

(** Boolean-mask indexing [a[mask]]: the entries of [a] whose mask bit is
    set, in order.  numpy raises [IndexError] when the two lengths differ,
    which is [None] here. *)
Fixpoint mask_index {A} (mask : list bool) (a : list A)
  : option (list A) :=
  match mask, a with
  | [], [] => Some []
  | b :: mask', x :: a' =>
      match mask_index mask' a' with
      | Some r => Some (if b then x :: r else r)
      | None => None
      end
  | _, _ => None
  end.

(** Integer-array indexing [a[idx]] with in-range indices. *)
Definition take {A} (a : list A) (idx : list nat) (d : A) : list A :=
  map (fun i => nth i a d) idx.

(** [np.any(mask)]. *)
Definition any (mask : list bool) : bool := existsb (fun b => b) mask.

(** [np.maximum(a, b)] and [np.minimum(a, b)] on scalars: nan wins. *)
Definition maximum (a b : float) : float :=
  if (b <=? a)%float || PrimFloat.is_nan a then a else b.

Definition minimum (a b : float) : float :=
  if (a <=? b)%float || PrimFloat.is_nan a then a else b.

(** [np.max(a)] and [np.min(a)] of a non-empty array (reduction from the
    first element); the default is returned for the empty array, where
    numpy raises. *)
Definition max (a : list float) : float :=
  match a with
  | [] => PrimFloat.nan
  | x :: tl => fold_left maximum tl x
  end.

Definition min (a : list float) : float :=
  match a with
  | [] => PrimFloat.nan
  | x :: tl => fold_left minimum tl x
  end.

End np.

(** Python's built-in [min(a, b)] and [max(a, b)] on two floats: the first
    argument is kept unless the second compares strictly below (above). *)
Definition py_min (a b : float) : float := if (b <? a)%float then b else a.
Definition py_max (a b : float) : float := if (a <? b)%float then b else a.

(** The Python exceptions that the modelled code can raise. *)
Inductive exn : Type := IndexError | ValueError | OverflowError | TypeError.

(** Python's [int(x)] on a float: truncation toward zero; [ValueError] on
    nan and [OverflowError] on the infinities. *)
Definition py_int (x : float) : Z + exn :=
  match Prim2SF x with
  | S754_zero _ => inl 0%Z
  | S754_finite s m e =>
      let mag := if (0 <=? e)%Z then (Z.pos m * 2 ^ e)%Z
                 else (Z.pos m / 2 ^ (- e))%Z in
      inl (if s then (- mag)%Z else mag)
  | S754_infinity _ => inr OverflowError
  | S754_nan => inr ValueError
  end.

(** The slice [a[i:j]] for [0 <= i] and [0 <= j <= len(a)]. *)
Definition py_slice {A} (a : list A) (i j : Z) : list A :=
  firstn (Z.to_nat (j - i)) (skipn (Z.to_nat i) a).

(* ================================================================== *)
(** * The scipy.signal routines the analyzer calls                     *)
(* ================================================================== *)

Module scipy_signal.

(** ** Filter design and zero-phase filtering

    [butter], [sosfiltfilt], [iirnotch] and [filtfilt] are library code.
    The analyzer only relies on their interface: a design step that yields
    coefficients, and a forward-backward filtering step that returns an
    array of the length of its input. *)

Inductive btype : Type := hp | lp.

Class Filters : Type := {
  sos : Type;
  ba : Type;
  (** [butter(N, Wn, btype, fs=fs, output='sos')] *)
  butter : Z -> float -> btype -> Z -> sos;
  (** [sosfiltfilt(sos, x)] *)
  sosfiltfilt : sos -> list float -> list float;
  (** [iirnotch(w0, Q, fs)] *)
  iirnotch : float -> float -> Z -> ba;
  (** [filtfilt(b, a, x)] *)
  filtfilt : ba -> list float -> list float;
  sosfiltfilt_length : forall s x, length (sosfiltfilt s x) = length x;
  filtfilt_length : forall c x, length (filtfilt c x) = length x
}.

(** ** [find_peaks(x, height=h, distance=d)]

    The three steps of the library routine: the scan for local maxima
    (plateaus reported by their middle sample), the height condition and
    the selection by minimal distance in order of decreasing height. *)

(** First index from [i_ahead] on whose sample differs from [x[i]], or
    [i_max]. *)
Fixpoint plateau_end (fuel : nat) (x : list float) (i i_ahead i_max : nat)
  : nat :=
  match fuel with
  | O => i_ahead
  | S fuel' =>
      if (i_ahead <? i_max)%nat
         && (nth i_ahead x 0 =? nth i x 0)%float
      then plateau_end fuel' x i (S i_ahead) i_max
      else i_ahead
  end.

(** The scan [while i < i_max] of [_local_maxima_1d]; [i] grows by at least
    one in every round, so [length x] rounds are enough. *)
Fixpoint local_maxima_from (fuel : nat) (x : list float) (i i_max : nat)
  : list nat :=
  match fuel with
  | O => []
  | S fuel' =>
      if (i <? i_max)%nat then
        if (nth (i - 1) x 0 <? nth i x 0)%float then
          let i_ahead := plateau_end (length x) x i (S i) i_max in
          if (nth i_ahead x 0 <? nth i x 0)%float
          then ((i + (i_ahead - 1)) / 2)%nat
                 :: local_maxima_from fuel' x (S i_ahead) i_max
          else local_maxima_from fuel' x (S i) i_max
        else local_maxima_from fuel' x (S i) i_max
      else []
  end.

Definition local_maxima_1d (x : list float) : list nat :=
  local_maxima_from (length x) x 1 (length x - 1).

(** [np.argsort(priority)] (ascending, equal keys in index order). *)
Fixpoint insert_by (p : list float) (j : nat) (l : list nat) : list nat :=
  match l with
  | [] => [j]
  | k :: l' =>
      if (nth j p 0 <? nth k p 0)%float then j :: l
      else k :: insert_by p j l'
  end.

Definition argsort (p : list float) : list nat :=
  fold_left (fun acc j => insert_by p j acc) (seq 0 (length p)) [].

(** One round of [_select_by_peak_distance] for the peak at position [j]:
    when it is still kept, every other peak closer than [distance] is
    dropped.  ([peaks] is increasing, so the two outward walks of the
    library reach exactly these positions.) *)
Definition drop_neighbours (peaks : list nat) (distance : Z)
           (keep : list bool) (j : nat) : list bool :=
  if nth j keep false then
    map (fun kb : nat * bool =>
           let (k, b) := kb in
           if (k =? j)%nat then b
           else if (Z.abs (Z.of_nat (nth k peaks O) - Z.of_nat (nth j peaks O))
                    <? distance)%Z
                then false else b)
        (combine (seq 0 (length keep)) keep)
  else keep.

Definition select_by_peak_distance (peaks : list nat) (priority : list float)
           (distance : Z) : list bool :=
  fold_left (drop_neighbours peaks distance)
            (rev (argsort priority))
            (repeat true (length peaks)).

(** Entries of [peaks] whose flag is set. *)
Fixpoint compress (keep : list bool) (peaks : list nat) : list nat :=
  match keep, peaks with
  | b :: keep', p :: peaks' =>
      if b then p :: compress keep' peaks' else compress keep' peaks'
  | _, _ => []
  end.

(** [None] is the [ValueError] raised for [distance < 1]. *)
Definition find_peaks (x : list float) (height : float) (distance : Z)
  : option (list nat) :=
  if (distance <? 1)%Z then None
  else
    let peaks := local_maxima_1d x in
    let peaks := filter (fun p => (height <=? nth p x 0)%float) peaks in
    let keep := select_by_peak_distance peaks (np.take x peaks 0%float) distance in
    Some (compress keep peaks).

End scipy_signal.


(* ================================================================== *)
(** * The analyzer's state                                             *)
(* ================================================================== *)

(** [self.sample_rate] and [self.max_samples], assigned once in [__init__]. *)
Definition sample_rate : Z := 10000.
Definition max_samples : Z := 300000.

(** One entry of [self.detected_spikes] (a dict with the keys ['time'],
    ['max'], ['min'] and ['amplitude']). *)
Record SpikeRecord : Type := {
  spike_time : float;
  spike_max : float;
  spike_min : float;
  spike_amplitude : float
}.

(** What [update_region_measurements] writes to the measurement labels; an
    average frequency of [None] is the text ["---"]. *)
Record Measurements : Type := {
  m_region : float * float;
  m_duration : float;
  m_samples : nat;
  m_rms : float;
  m_peak_to_peak : float;
  m_avg_freq : option float
}.

(** The attributes of [SurfaceMicrophoneAnalyzer] that the core reads or
    writes.  The spin boxes stand for their [value()]; [spike_count_label]
    is [None] for "No spikes detected" and [Some n] for "Found n spikes";
    [measurement_labels] is [None] when the labels show their placeholders.
    Plot items, buttons and dialogs are presentation and are left out. *)
Record Analyzer : Type := {
  data_buffer : deque.t Z;
  time_buffer : deque.t float;
  paused : bool;
  frozen_data : option (list Z);
  frozen_time : option (list float);
  dc_offset : float;
  highpass_enabled : bool;
  lowpass_enabled : bool;
  notch_enabled : bool;
  region_selection_mode : bool;
  selected_region : option (float * float);
  detected_spikes : list SpikeRecord;
  spike_markers : list float;
  _region_start : option float;
  total_samples_received : Z;
  threshold_spin : float;
  min_distance_spin : float;
  highpass_spin : float;
  lowpass_spin : float;
  notch_freq_spin : float;
  notch_q_spin : float;
  spike_count_label : option nat;
  measurement_labels : option Measurements
}.

(** Attribute assignment [self.f = v]. *)
Definition set_data_buffer (v : deque.t Z) (st : Analyzer) : Analyzer :=
  {| data_buffer := v; time_buffer := time_buffer st; paused := paused st;
     frozen_data := frozen_data st; frozen_time := frozen_time st;
     dc_offset := dc_offset st; highpass_enabled := highpass_enabled st;
     lowpass_enabled := lowpass_enabled st;
     notch_enabled := notch_enabled st;
     region_selection_mode := region_selection_mode st;
     selected_region := selected_region st;
     detected_spikes := detected_spikes st;
     spike_markers := spike_markers st; _region_start := _region_start st;
     total_samples_received := total_samples_received st;
     threshold_spin := threshold_spin st;
     min_distance_spin := min_distance_spin st;
     highpass_spin := highpass_spin st; lowpass_spin := lowpass_spin st;
     notch_freq_spin := notch_freq_spin st; notch_q_spin := notch_q_spin st;
     spike_count_label := spike_count_label st;
     measurement_labels := measurement_labels st |}.

Definition set_time_buffer (v : deque.t float) (st : Analyzer) : Analyzer :=
  {| data_buffer := data_buffer st; time_buffer := v; paused := paused st;
     frozen_data := frozen_data st; frozen_time := frozen_time st;
     dc_offset := dc_offset st; highpass_enabled := highpass_enabled st;
     lowpass_enabled := lowpass_enabled st;
     notch_enabled := notch_enabled st;
     region_selection_mode := region_selection_mode st;
     selected_region := selected_region st;
     detected_spikes := detected_spikes st;
     spike_markers := spike_markers st; _region_start := _region_start st;
     total_samples_received := total_samples_received st;
     threshold_spin := threshold_spin st;
     min_distance_spin := min_distance_spin st;
     highpass_spin := highpass_spin st; lowpass_spin := lowpass_spin st;
     notch_freq_spin := notch_freq_spin st; notch_q_spin := notch_q_spin st;
     spike_count_label := spike_count_label st;
     measurement_labels := measurement_labels st |}.

Definition set_paused (v : bool) (st : Analyzer) : Analyzer :=
  {| data_buffer := data_buffer st; time_buffer := time_buffer st;
     paused := v; frozen_data := frozen_data st;
     frozen_time := frozen_time st; dc_offset := dc_offset st;
     highpass_enabled := highpass_enabled st;
     lowpass_enabled := lowpass_enabled st;
     notch_enabled := notch_enabled st;
     region_selection_mode := region_selection_mode st;
     selected_region := selected_region st;
     detected_spikes := detected_spikes st;
     spike_markers := spike_markers st; _region_start := _region_start st;
     total_samples_received := total_samples_received st;
     threshold_spin := threshold_spin st;
     min_distance_spin := min_distance_spin st;
     highpass_spin := highpass_spin st; lowpass_spin := lowpass_spin st;
     notch_freq_spin := notch_freq_spin st; notch_q_spin := notch_q_spin st;
     spike_count_label := spike_count_label st;
     measurement_labels := measurement_labels st |}.

Definition set_frozen_data (v : option (list Z)) (st : Analyzer) : Analyzer :=
  {| data_buffer := data_buffer st; time_buffer := time_buffer st;
     paused := paused st; frozen_data := v; frozen_time := frozen_time st;
     dc_offset := dc_offset st; highpass_enabled := highpass_enabled st;
     lowpass_enabled := lowpass_enabled st;
     notch_enabled := notch_enabled st;
     region_selection_mode := region_selection_mode st;
     selected_region := selected_region st;
     detected_spikes := detected_spikes st;
     spike_markers := spike_markers st; _region_start := _region_start st;
     total_samples_received := total_samples_received st;
     threshold_spin := threshold_spin st;
     min_distance_spin := min_distance_spin st;
     highpass_spin := highpass_spin st; lowpass_spin := lowpass_spin st;
     notch_freq_spin := notch_freq_spin st; notch_q_spin := notch_q_spin st;
     spike_count_label := spike_count_label st;
     measurement_labels := measurement_labels st |}.

Definition set_frozen_time (v : option (list float)) (st : Analyzer) : Analyzer :=
  {| data_buffer := data_buffer st; time_buffer := time_buffer st;
     paused := paused st; frozen_data := frozen_data st; frozen_time := v;
     dc_offset := dc_offset st; highpass_enabled := highpass_enabled st;
     lowpass_enabled := lowpass_enabled st;
     notch_enabled := notch_enabled st;
     region_selection_mode := region_selection_mode st;
     selected_region := selected_region st;
     detected_spikes := detected_spikes st;
     spike_markers := spike_markers st; _region_start := _region_start st;
     total_samples_received := total_samples_received st;
     threshold_spin := threshold_spin st;
     min_distance_spin := min_distance_spin st;
     highpass_spin := highpass_spin st; lowpass_spin := lowpass_spin st;
     notch_freq_spin := notch_freq_spin st; notch_q_spin := notch_q_spin st;
     spike_count_label := spike_count_label st;
     measurement_labels := measurement_labels st |}.

Definition set_dc_offset (v : float) (st : Analyzer) : Analyzer :=
  {| data_buffer := data_buffer st; time_buffer := time_buffer st;
     paused := paused st; frozen_data := frozen_data st;
     frozen_time := frozen_time st; dc_offset := v;
     highpass_enabled := highpass_enabled st;
     lowpass_enabled := lowpass_enabled st;
     notch_enabled := notch_enabled st;
     region_selection_mode := region_selection_mode st;
     selected_region := selected_region st;
     detected_spikes := detected_spikes st;
     spike_markers := spike_markers st; _region_start := _region_start st;
     total_samples_received := total_samples_received st;
     threshold_spin := threshold_spin st;
     min_distance_spin := min_distance_spin st;
     highpass_spin := highpass_spin st; lowpass_spin := lowpass_spin st;
     notch_freq_spin := notch_freq_spin st; notch_q_spin := notch_q_spin st;
     spike_count_label := spike_count_label st;
     measurement_labels := measurement_labels st |}.

Definition set_highpass_enabled (v : bool) (st : Analyzer) : Analyzer :=
  {| data_buffer := data_buffer st; time_buffer := time_buffer st;
     paused := paused st; frozen_data := frozen_data st;
     frozen_time := frozen_time st; dc_offset := dc_offset st;
     highpass_enabled := v; lowpass_enabled := lowpass_enabled st;
     notch_enabled := notch_enabled st;
     region_selection_mode := region_selection_mode st;
     selected_region := selected_region st;
     detected_spikes := detected_spikes st;
     spike_markers := spike_markers st; _region_start := _region_start st;
     total_samples_received := total_samples_received st;
     threshold_spin := threshold_spin st;
     min_distance_spin := min_distance_spin st;
     highpass_spin := highpass_spin st; lowpass_spin := lowpass_spin st;
     notch_freq_spin := notch_freq_spin st; notch_q_spin := notch_q_spin st;
     spike_count_label := spike_count_label st;
     measurement_labels := measurement_labels st |}.

Definition set_lowpass_enabled (v : bool) (st : Analyzer) : Analyzer :=
  {| data_buffer := data_buffer st; time_buffer := time_buffer st;
     paused := paused st; frozen_data := frozen_data st;
     frozen_time := frozen_time st; dc_offset := dc_offset st;
     highpass_enabled := highpass_enabled st; lowpass_enabled := v;
     notch_enabled := notch_enabled st;
     region_selection_mode := region_selection_mode st;
     selected_region := selected_region st;
     detected_spikes := detected_spikes st;
     spike_markers := spike_markers st; _region_start := _region_start st;
     total_samples_received := total_samples_received st;
     threshold_spin := threshold_spin st;
     min_distance_spin := min_distance_spin st;
     highpass_spin := highpass_spin st; lowpass_spin := lowpass_spin st;
     notch_freq_spin := notch_freq_spin st; notch_q_spin := notch_q_spin st;
     spike_count_label := spike_count_label st;
     measurement_labels := measurement_labels st |}.

Definition set_notch_enabled (v : bool) (st : Analyzer) : Analyzer :=
  {| data_buffer := data_buffer st; time_buffer := time_buffer st;
     paused := paused st; frozen_data := frozen_data st;
     frozen_time := frozen_time st; dc_offset := dc_offset st;
     highpass_enabled := highpass_enabled st;
     lowpass_enabled := lowpass_enabled st; notch_enabled := v;
     region_selection_mode := region_selection_mode st;
     selected_region := selected_region st;
     detected_spikes := detected_spikes st;
     spike_markers := spike_markers st; _region_start := _region_start st;
     total_samples_received := total_samples_received st;
     threshold_spin := threshold_spin st;
     min_distance_spin := min_distance_spin st;
     highpass_spin := highpass_spin st; lowpass_spin := lowpass_spin st;
     notch_freq_spin := notch_freq_spin st; notch_q_spin := notch_q_spin st;
     spike_count_label := spike_count_label st;
     measurement_labels := measurement_labels st |}.

Definition set_region_selection_mode (v : bool) (st : Analyzer) : Analyzer :=
  {| data_buffer := data_buffer st; time_buffer := time_buffer st;
     paused := paused st; frozen_data := frozen_data st;
     frozen_time := frozen_time st; dc_offset := dc_offset st;
     highpass_enabled := highpass_enabled st;
     lowpass_enabled := lowpass_enabled st;
     notch_enabled := notch_enabled st; region_selection_mode := v;
     selected_region := selected_region st;
     detected_spikes := detected_spikes st;
     spike_markers := spike_markers st; _region_start := _region_start st;
     total_samples_received := total_samples_received st;
     threshold_spin := threshold_spin st;
     min_distance_spin := min_distance_spin st;
     highpass_spin := highpass_spin st; lowpass_spin := lowpass_spin st;
     notch_freq_spin := notch_freq_spin st; notch_q_spin := notch_q_spin st;
     spike_count_label := spike_count_label st;
     measurement_labels := measurement_labels st |}.

Definition set_selected_region (v : option (float * float)) (st : Analyzer) : Analyzer :=
  {| data_buffer := data_buffer st; time_buffer := time_buffer st;
     paused := paused st; frozen_data := frozen_data st;
     frozen_time := frozen_time st; dc_offset := dc_offset st;
     highpass_enabled := highpass_enabled st;
     lowpass_enabled := lowpass_enabled st;
     notch_enabled := notch_enabled st;
     region_selection_mode := region_selection_mode st; selected_region := v;
     detected_spikes := detected_spikes st;
     spike_markers := spike_markers st; _region_start := _region_start st;
     total_samples_received := total_samples_received st;
     threshold_spin := threshold_spin st;
     min_distance_spin := min_distance_spin st;
     highpass_spin := highpass_spin st; lowpass_spin := lowpass_spin st;
     notch_freq_spin := notch_freq_spin st; notch_q_spin := notch_q_spin st;
     spike_count_label := spike_count_label st;
     measurement_labels := measurement_labels st |}.

Definition set_detected_spikes (v : list SpikeRecord) (st : Analyzer) : Analyzer :=
  {| data_buffer := data_buffer st; time_buffer := time_buffer st;
     paused := paused st; frozen_data := frozen_data st;
     frozen_time := frozen_time st; dc_offset := dc_offset st;
     highpass_enabled := highpass_enabled st;
     lowpass_enabled := lowpass_enabled st;
     notch_enabled := notch_enabled st;
     region_selection_mode := region_selection_mode st;
     selected_region := selected_region st; detected_spikes := v;
     spike_markers := spike_markers st; _region_start := _region_start st;
     total_samples_received := total_samples_received st;
     threshold_spin := threshold_spin st;
     min_distance_spin := min_distance_spin st;
     highpass_spin := highpass_spin st; lowpass_spin := lowpass_spin st;
     notch_freq_spin := notch_freq_spin st; notch_q_spin := notch_q_spin st;
     spike_count_label := spike_count_label st;
     measurement_labels := measurement_labels st |}.

Definition set_spike_markers (v : list float) (st : Analyzer) : Analyzer :=
  {| data_buffer := data_buffer st; time_buffer := time_buffer st;
     paused := paused st; frozen_data := frozen_data st;
     frozen_time := frozen_time st; dc_offset := dc_offset st;
     highpass_enabled := highpass_enabled st;
     lowpass_enabled := lowpass_enabled st;
     notch_enabled := notch_enabled st;
     region_selection_mode := region_selection_mode st;
     selected_region := selected_region st;
     detected_spikes := detected_spikes st; spike_markers := v;
     _region_start := _region_start st;
     total_samples_received := total_samples_received st;
     threshold_spin := threshold_spin st;
     min_distance_spin := min_distance_spin st;
     highpass_spin := highpass_spin st; lowpass_spin := lowpass_spin st;
     notch_freq_spin := notch_freq_spin st; notch_q_spin := notch_q_spin st;
     spike_count_label := spike_count_label st;
     measurement_labels := measurement_labels st |}.

Definition set_region_start (v : option float) (st : Analyzer) : Analyzer :=
  {| data_buffer := data_buffer st; time_buffer := time_buffer st;
     paused := paused st; frozen_data := frozen_data st;
     frozen_time := frozen_time st; dc_offset := dc_offset st;
     highpass_enabled := highpass_enabled st;
     lowpass_enabled := lowpass_enabled st;
     notch_enabled := notch_enabled st;
     region_selection_mode := region_selection_mode st;
     selected_region := selected_region st;
     detected_spikes := detected_spikes st;
     spike_markers := spike_markers st; _region_start := v;
     total_samples_received := total_samples_received st;
     threshold_spin := threshold_spin st;
     min_distance_spin := min_distance_spin st;
     highpass_spin := highpass_spin st; lowpass_spin := lowpass_spin st;
     notch_freq_spin := notch_freq_spin st; notch_q_spin := notch_q_spin st;
     spike_count_label := spike_count_label st;
     measurement_labels := measurement_labels st |}.

Definition set_total_samples_received (v : Z) (st : Analyzer) : Analyzer :=
  {| data_buffer := data_buffer st; time_buffer := time_buffer st;
     paused := paused st; frozen_data := frozen_data st;
     frozen_time := frozen_time st; dc_offset := dc_offset st;
     highpass_enabled := highpass_enabled st;
     lowpass_enabled := lowpass_enabled st;
     notch_enabled := notch_enabled st;
     region_selection_mode := region_selection_mode st;
     selected_region := selected_region st;
     detected_spikes := detected_spikes st;
     spike_markers := spike_markers st; _region_start := _region_start st;
     total_samples_received := v; threshold_spin := threshold_spin st;
     min_distance_spin := min_distance_spin st;
     highpass_spin := highpass_spin st; lowpass_spin := lowpass_spin st;
     notch_freq_spin := notch_freq_spin st; notch_q_spin := notch_q_spin st;
     spike_count_label := spike_count_label st;
     measurement_labels := measurement_labels st |}.

(** The operator setting the threshold spin box. *)
Definition set_threshold_spin (v : float) (st : Analyzer) : Analyzer :=
  {| data_buffer := data_buffer st; time_buffer := time_buffer st;
     paused := paused st; frozen_data := frozen_data st;
     frozen_time := frozen_time st; dc_offset := dc_offset st;
     highpass_enabled := highpass_enabled st;
     lowpass_enabled := lowpass_enabled st;
     notch_enabled := notch_enabled st;
     region_selection_mode := region_selection_mode st;
     selected_region := selected_region st;
     detected_spikes := detected_spikes st;
     spike_markers := spike_markers st; _region_start := _region_start st;
     total_samples_received := total_samples_received st;
     threshold_spin := v; min_distance_spin := min_distance_spin st;
     highpass_spin := highpass_spin st; lowpass_spin := lowpass_spin st;
     notch_freq_spin := notch_freq_spin st; notch_q_spin := notch_q_spin st;
     spike_count_label := spike_count_label st;
     measurement_labels := measurement_labels st |}.

Definition set_spike_count_label (v : option nat) (st : Analyzer) : Analyzer :=
  {| data_buffer := data_buffer st; time_buffer := time_buffer st;
     paused := paused st; frozen_data := frozen_data st;
     frozen_time := frozen_time st; dc_offset := dc_offset st;
     highpass_enabled := highpass_enabled st;
     lowpass_enabled := lowpass_enabled st;
     notch_enabled := notch_enabled st;
     region_selection_mode := region_selection_mode st;
     selected_region := selected_region st;
     detected_spikes := detected_spikes st;
     spike_markers := spike_markers st; _region_start := _region_start st;
     total_samples_received := total_samples_received st;
     threshold_spin := threshold_spin st;
     min_distance_spin := min_distance_spin st;
     highpass_spin := highpass_spin st; lowpass_spin := lowpass_spin st;
     notch_freq_spin := notch_freq_spin st; notch_q_spin := notch_q_spin st;
     spike_count_label := v; measurement_labels := measurement_labels st |}.

Definition set_measurement_labels (v : option Measurements) (st : Analyzer) : Analyzer :=
  {| data_buffer := data_buffer st; time_buffer := time_buffer st;
     paused := paused st; frozen_data := frozen_data st;
     frozen_time := frozen_time st; dc_offset := dc_offset st;
     highpass_enabled := highpass_enabled st;
     lowpass_enabled := lowpass_enabled st;
     notch_enabled := notch_enabled st;
     region_selection_mode := region_selection_mode st;
     selected_region := selected_region st;
     detected_spikes := detected_spikes st;
     spike_markers := spike_markers st; _region_start := _region_start st;
     total_samples_received := total_samples_received st;
     threshold_spin := threshold_spin st;
     min_distance_spin := min_distance_spin st;
     highpass_spin := highpass_spin st; lowpass_spin := lowpass_spin st;
     notch_freq_spin := notch_freq_spin st; notch_q_spin := notch_q_spin st;
     spike_count_label := spike_count_label st; measurement_labels := v |}.

(* ================================================================== *)
(** * Acquisition: the sample buffer                                   *)
(* ================================================================== *)

(** [__init__]: the attribute values a fresh analyzer starts with (spin
    boxes at their [setValue] defaults). *)
Definition init : Analyzer :=
  {| data_buffer := deque.empty max_samples;
     time_buffer := deque.empty max_samples;
     paused := false;
     frozen_data := None;
     frozen_time := None;
     dc_offset := 2048%float;
     highpass_enabled := true;
     lowpass_enabled := false;
     notch_enabled := true;
     region_selection_mode := false;
     selected_region := None;
     detected_spikes := [];
     spike_markers := [];
     _region_start := None;
     total_samples_received := 0;
     threshold_spin := 100%float;
     min_distance_spin := 0.05%float;
     highpass_spin := 10%float;
     lowpass_spin := 500%float;
     notch_freq_spin := 50%float;
     notch_q_spin := 30%float;
     spike_count_label := None;
     measurement_labels := None |}.

(** The time stamps of one batch:
    [timestamp + np.arange(len(samples)) * dt] with
    [dt = 1.0 / self.sample_rate]. *)
Definition batch_times (n : nat) (timestamp : float) : list float :=
  let dt := (1 / np.float_of_Z sample_rate)%float in
  map (fun k => (timestamp + k * dt)%float) (np.arange n).

(** [on_data_received(samples, timestamp)] *)
Definition on_data_received (st : Analyzer) (samples : list Z)
           (timestamp : float) : Analyzer :=
  if negb (paused st) then
    let st := set_total_samples_received
                (total_samples_received st + Z.of_nat (length samples)) st in
    let times := batch_times (length samples) timestamp in
    let st := set_data_buffer (deque.extend (data_buffer st) samples) st in
    set_time_buffer (deque.extend (time_buffer st) times) st
  else st.

(** [toggle_pause()] *)
Definition toggle_pause (st : Analyzer) : Analyzer :=
  let st := set_paused (negb (paused st)) st in
  if paused st then
    let st := set_frozen_data (Some (deque.items (data_buffer st))) st in
    set_frozen_time (Some (deque.items (time_buffer st))) st
  else
    let st := set_frozen_data None st in
    set_frozen_time None st.

(** [clear_selected_region()] *)
Definition clear_selected_region (st : Analyzer) : Analyzer :=
  let st := set_selected_region None st in
  let st := set_region_start None st in
  let st := set_detected_spikes [] st in
  let st := set_spike_markers [] st in
  let st := set_spike_count_label None st in
  set_measurement_labels None st.

(** [clear_data()] *)
Definition clear_data (st : Analyzer) : Analyzer :=
  let st := set_data_buffer (deque.clear (data_buffer st)) st in
  let st := set_time_buffer (deque.clear (time_buffer st)) st in
  let st := set_frozen_data None st in
  let st := set_frozen_time None st in
  let st := set_total_samples_received 0 st in
  clear_selected_region st.

(** [toggle_region_mode(state)], [toggle_highpass(state)], ...: the check
    box is on when [state == 2]. *)
Definition toggle_region_mode (st : Analyzer) (state : Z) : Analyzer :=
  let st := set_region_selection_mode (state =? 2)%Z st in
  if negb (region_selection_mode st) then set_region_start None st else st.

Definition toggle_highpass (st : Analyzer) (state : Z) : Analyzer :=
  set_highpass_enabled (state =? 2)%Z st.

Definition toggle_lowpass (st : Analyzer) (state : Z) : Analyzer :=
  set_lowpass_enabled (state =? 2)%Z st.

Definition toggle_notch (st : Analyzer) (state : Z) : Analyzer :=
  set_notch_enabled (state =? 2)%Z st.

(** The "Get data" step shared by [detect_spikes], [on_mouse_clicked] and
    [update_region_measurements]: the frozen snapshot while paused, otherwise
    a copy of the live buffers, which must not be empty.  A paused analyzer
    whose [frozen_time] is [None] hands [None] on as the time array, which
    the callers cannot compare or measure ([TypeError]). *)
Inductive Snapshot : Type :=
| snapshot (data : list Z) (times : list float)
| snapshot_no_data
| snapshot_no_times.

Definition get_data (st : Analyzer) : Snapshot :=
  match paused st, frozen_data st with
  | true, Some data =>
      match frozen_time st with
      | Some times => snapshot data times
      | None => snapshot_no_times
      end
  | _, _ =>
      if (deque.len (data_buffer st) =? 0)%nat then snapshot_no_data
      else snapshot (deque.items (data_buffer st)) (deque.items (time_buffer st))
  end.

(* ================================================================== *)
(** * The filter chain                                                 *)
(* ================================================================== *)

Section FilterChain.

Context {F : scipy_signal.Filters}.

(** The three [if self.<stage>_enabled and len(processed) > 100:] blocks of
    [process_signal]. *)
Definition highpass_stage (st : Analyzer) (processed : list float)
  : list float :=
  if highpass_enabled st && (100 <? length processed)%nat then
    let cutoff := highpass_spin st in
    let sos := scipy_signal.butter 4 cutoff scipy_signal.hp sample_rate in
    scipy_signal.sosfiltfilt sos processed
  else processed.

Definition lowpass_stage (st : Analyzer) (processed : list float)
  : list float :=
  if lowpass_enabled st && (100 <? length processed)%nat then
    let cutoff := lowpass_spin st in
    let sos := scipy_signal.butter 4 cutoff scipy_signal.lp sample_rate in
    scipy_signal.sosfiltfilt sos processed
  else processed.

Definition notch_stage (st : Analyzer) (processed : list float)
  : list float :=
  if notch_enabled st && (100 <? length processed)%nat then
    let freq := notch_freq_spin st in
    let q := notch_q_spin st in
    let ba := scipy_signal.iirnotch freq q sample_rate in
    scipy_signal.filtfilt ba processed
  else processed.

(** The first block of [process_signal]: the copy as floats and the DC
    removal; returns the samples and the new [self.dc_offset]. *)
Definition remove_dc (st : Analyzer) (data : list Z) : list float * float :=
  let processed := np.astype_float data in
  let any_filter_active :=
    highpass_enabled st || lowpass_enabled st || notch_enabled st in
  if any_filter_active then
    let dc := np.mean processed in
    (map (fun x => (x - dc)%float) processed, dc)
  else (processed, 2048%float).

(** [process_signal(data)]: the processed samples and the analyzer with
    its [dc_offset] updated. *)
Definition process_signal (st : Analyzer) (data : list Z)
  : list float * Analyzer :=
  let (processed, dc) := remove_dc st data in
  let st := set_dc_offset dc st in
  let processed := highpass_stage st processed in
  let processed := lowpass_stage st processed in
  let processed := notch_stage st processed in
  (processed, st).

End FilterChain.

(* ================================================================== *)
(** * Region statistics and spike detection                            *)
(* ================================================================== *)

(** The mask [(times >= start_time) & (times <= end_time)]. *)
Definition region_mask (times : list float) (start_time end_time : float)
  : list bool :=
  map (fun t => (start_time <=? t)%float && (t <=? end_time)%float) times.

(** [np.where(np.diff(np.sign(region_data)))[0]] *)
Definition zero_crossings (region_data : list float) : list nat :=
  np.where_ (np.diff (map np.sign region_data)).

(** The frequency estimate of [update_region_measurements]; [None] is the
    text ["---"], [Some f] the text of [f] in Hz. *)
Definition freq_text (region_times region_data : list float) : option float :=
  let zero_crossings := zero_crossings region_data in
  if (1 <? length zero_crossings)%nat then
    let avg_period :=
      (np.mean (np.diff (np.take region_times zero_crossings 0%float)) * 2)%float in
    if (0 <? avg_period)%float then
      let avg_freq := (1 / avg_period)%float in
      Some avg_freq
    else None
  else None.

(** The body of the [for peak_idx in peaks:] loop of [detect_spikes], on the
    pair ([self.detected_spikes], [self.spike_markers]). *)
Definition analyze_peak (region_times region_data : list float)
           (min_distance_samples : Z)
           (acc : list SpikeRecord * list float) (peak_idx : nat)
  : list SpikeRecord * list float :=
  let peak_time := nth peak_idx region_times 0%float in
  let window := (min_distance_samples / 2)%Z in
  let start_idx := Z.max 0 (Z.of_nat peak_idx - window) in
  let end_idx := Z.min (Z.of_nat (length region_data))
                       (Z.of_nat peak_idx + window + 1) in
  let local_data := py_slice region_data start_idx end_idx in
  if (0 <? length local_data)%nat then
    let local_max := np.max local_data in
    let local_min := np.min local_data in
    (fst acc ++ [{| spike_time := peak_time;
                    spike_max := local_max;
                    spike_min := local_min;
                    spike_amplitude := (local_max - local_min)%float |}],
     snd acc ++ [peak_time])
  else acc.

(** How a call of [detect_spikes] ends: one of the three warnings, the
    "No Spikes" information box, the results dialog, or an exception. *)
Inductive DetectResult : Type :=
| warning_no_region
| warning_no_data
| warning_no_data_in_region
| information_no_spikes (threshold : float)
| results_dialog (spikes : list SpikeRecord)
| detect_raised (e : exn).

Inductive MouseButton : Type := LeftButton | OtherButton.

(** The outcome of the blocks "Process signal" and "Extract region", which
    [detect_spikes] and [update_region_measurements] share word for word:
    the region's times and processed samples, an empty mask, or the
    [IndexError] of a mask that does not fit the processed array. *)
Inductive RegionData : Type :=
| in_region (region_times region_data : list float)
| region_no_data
| region_raised (e : exn).

Section Region.

Context {F : scipy_signal.Filters}.

(** [processed_data = self.process_signal(data)], then the mask and
    [times[mask]], [processed_data[mask]]. *)
Definition extract_region (st : Analyzer) (data : list Z)
           (times : list float) (start_time end_time : float)
  : RegionData * Analyzer :=
  let (processed_data, st) := process_signal st data in
  let mask := region_mask times start_time end_time in
  if negb (np.any mask) then (region_no_data, st)
  else
    match np.mask_index mask times, np.mask_index mask processed_data with
    | Some region_times, Some region_data' =>
        (in_region region_times region_data', st)
    | _, _ => (region_raised IndexError, st)
    end.

(** "Get data" followed by the two blocks above. *)
Definition get_region (st : Analyzer) (start_time end_time : float)
  : option (RegionData * Analyzer) :=
  match get_data st with
  | snapshot_no_data => None
  | snapshot_no_times =>
      let data := match frozen_data st with Some d => d | None => [] end in
      let (_, st) := process_signal st data in
      Some (region_raised TypeError, st)
  | snapshot data times =>
      Some (extract_region st data times start_time end_time)
  end.

(** [detect_spikes()] *)
Definition detect_spikes (st : Analyzer) : DetectResult * Analyzer :=
  match selected_region st with
  | None => (warning_no_region, st)
  | Some (start_time, end_time) =>
    match get_region st start_time end_time with
    | None => (warning_no_data, st)
    | Some (region_raised e, st) => (detect_raised e, st)
    | Some (region_no_data, st) => (warning_no_data_in_region, st)
    | Some (in_region region_times region_data, st) =>
      let threshold := threshold_spin st in
      let min_distance_sec := min_distance_spin st in
      match py_int (min_distance_sec * np.float_of_Z sample_rate)%float with
      | inr e => (detect_raised e, st)
      | inl min_distance_samples =>
        let abs_data := map PrimFloat.abs region_data in
        match scipy_signal.find_peaks abs_data threshold
                                      min_distance_samples with
        | None => (detect_raised ValueError, st)
        | Some peaks =>
          if (length peaks =? 0)%nat then
            (information_no_spikes threshold, st)
          else
            let st := set_spike_markers [] st in
            let st := set_detected_spikes [] st in
            let (spikes, markers) :=
              fold_left (analyze_peak region_times region_data
                                      min_distance_samples)
                        peaks (detected_spikes st, spike_markers st) in
            let st := set_detected_spikes spikes st in
            let st := set_spike_markers markers st in
            let st := set_spike_count_label
                        (Some (length (detected_spikes st))) st in
            (results_dialog (detected_spikes st), st)
        end
      end
    end
  end.

(** [update_region_measurements()]: the analyzer afterwards, and the
    exception when one is raised. *)
Definition update_region_measurements (st : Analyzer)
  : option exn * Analyzer :=
  match selected_region st with
  | None => (None, st)
  | Some (start_time, end_time) =>
    match get_region st start_time end_time with
    | None => (None, st)
    | Some (region_raised e, st) => (Some e, st)
    | Some (region_no_data, st) => (None, st)
    | Some (in_region region_times region_data, st) =>
      let duration := (end_time - start_time)%float in
      let num_samples := length region_data in
      let rms :=
        PrimFloat.sqrt (np.mean (map (fun x => (x * x)%float) region_data)) in
      let p2p := (np.max region_data - np.min region_data)%float in
      let freq_text := freq_text region_times region_data in
      (None,
       set_measurement_labels
         (Some {| m_region := (start_time, end_time);
                  m_duration := duration;
                  m_samples := num_samples;
                  m_rms := rms;
                  m_peak_to_peak := p2p;
                  m_avg_freq := freq_text |}) st)
    end
  end.

(** [on_mouse_clicked(event)], with the event's button and the time
    coordinate [click_time] of the click. *)
Definition on_mouse_clicked (st : Analyzer) (button : MouseButton)
           (click_time : float) : option exn * Analyzer :=
  if negb (region_selection_mode st) then (None, st)
  else
    match button with
    | OtherButton => (None, st)
    | LeftButton =>
      match get_data st with
      | snapshot_no_data => (None, st)
      | snapshot_no_times => (Some TypeError, st)
      | snapshot _ times =>
        if (length times =? 0)%nat then (None, st)
        else
          match _region_start st with
          | None => (None, set_region_start (Some click_time) st)
          | Some region_start =>
            let region_end := click_time in
            let start := py_min region_start region_end in
            let end_ := py_max region_start region_end in
            let st := set_selected_region (Some (start, end_)) st in
            let st := set_region_start None st in
            update_region_measurements st
          end
      end
    end.

End Region.

(* ================================================================== *)
(** * The specification's formulations                                 *)
(* ================================================================== *)

Module Spec.

(** RegionExtractor: [time >= start AND time <= end]. *)
Definition in_bounds (start_time end_time t : float) : bool :=
  (start_time <=? t)%float && (t <=? end_time)%float.

(** [extract(times, amplitudes, region)]: the (time, amplitude) pairs
    whose time lies within the bounds, in input order. *)
Definition extract {A} (times : list float) (amplitudes : list A)
           (start_time end_time : float) : list float * list A :=
  let kept := filter (fun p => in_bounds start_time end_time (fst p))
                     (combine times amplitudes) in
  (map fst kept, map snd kept).

(** The control flow of the overview: RegionExtractor, then FilterChain. *)
Definition extract_then_filter {F : scipy_signal.Filters} (st : Analyzer)
           (data : list Z) (times : list float)
           (start_time end_time : float) : list float * list float :=
  let (region_times, region_raw) := extract times data start_time end_time in
  (region_times, fst (process_signal st region_raw)).

(** A zero crossing is an index at which the sign of the amplitude differs
    from the sign of the next sample. *)
Definition sign_changes (a : list float) (i : nat) : bool :=
  negb (np.sign (nth i a 0%float) =? np.sign (nth (S i) a 0%float))%float.

Definition crossings (a : list float) : list nat :=
  filter (sign_changes a) (seq 0 (length a - 1)).

(** Time deltas between consecutive crossing timestamps. *)
Fixpoint deltas (ts : list float) : list float :=
  match ts with
  | t0 :: ((t1 :: _) as rest) => (t1 - t0)%float :: deltas rest
  | _ => []
  end.

(** The period: the mean delta between consecutive crossings, doubled. *)
Definition period (times a : list float) : float :=
  (np.mean (deltas (map (fun i => nth i times 0%float) (crossings a))) * 2)%float.

End Spec.

(* ================================================================== *)
(** * Runs, instances of the filter interface and sample states        *)
(* ================================================================== *)

(** Delivering a sequence of batches [(samples, timestamp)]. *)
Definition receive_all (st : Analyzer) (batches : list (list Z * float))
  : Analyzer :=
  fold_left (fun st b => on_data_received st (fst b) (snd b)) batches st.

(** Every sample of the batches, and every time stamp given to them, in
    order of arrival. *)
Definition all_samples (batches : list (list Z * float)) : list Z :=
  concat (map fst batches).

Definition all_times (batches : list (list Z * float)) : list float :=
  concat (map (fun b => batch_times (length (fst b)) (snd b)) batches).

(** The events that drive the analyzer: batches from the serial reader and
    the operator's actions, each handled by the slot connected to it. *)
Inductive Event : Type :=
| DataReceived (samples : list Z) (timestamp : float)
| PauseToggled
| DataCleared
| RegionCleared
| RegionModeToggled (state : Z)
| HighpassToggled (state : Z)
| LowpassToggled (state : Z)
| NotchToggled (state : Z)
| ThresholdSet (value : float)
| MouseClicked (button : MouseButton) (click_time : float)
| DetectRequested.

Definition handle {F : scipy_signal.Filters} (st : Analyzer) (ev : Event)
  : Analyzer :=
  match ev with
  | DataReceived samples timestamp => on_data_received st samples timestamp
  | PauseToggled => toggle_pause st
  | DataCleared => clear_data st
  | RegionCleared => clear_selected_region st
  | RegionModeToggled state => toggle_region_mode st state
  | HighpassToggled state => toggle_highpass st state
  | LowpassToggled state => toggle_lowpass st state
  | NotchToggled state => toggle_notch st state
  | ThresholdSet value => set_threshold_spin value st
  | MouseClicked button click_time => snd (on_mouse_clicked st button click_time)
  | DetectRequested => snd (detect_spikes st)
  end.

Definition run {F : scipy_signal.Filters} (st : Analyzer) (evs : list Event)
  : Analyzer :=
  fold_left handle evs st.

(** The alignment of the two channels: both deques have the capacity
    [max_samples] and the same number of entries, within the capacity, and
    the frozen copies are both absent or both present with the same
    number of entries. *)
Definition aligned (st : Analyzer) : Prop :=
  deque.maxlen (data_buffer st) = max_samples /\
  deque.maxlen (time_buffer st) = max_samples /\
  length (deque.items (data_buffer st)) = length (deque.items (time_buffer st)) /\
  (Z.of_nat (length (deque.items (data_buffer st))) <= max_samples)%Z /\
  match frozen_data st, frozen_time st with
  | Some data, Some times => length data = length times
  | None, None => True
  | _, _ => False
  end.

(** The attributes of the acquisition path. *)
Definition acquisition (st : Analyzer)
  : deque.t Z * deque.t float * bool * option (list Z) * option (list float) :=
  (data_buffer st, time_buffer st, paused st, frozen_data st, frozen_time st).

(** The exact integer value of a float, when it has one: a finite non-zero
    [x] is [m * 2^(ex - 2154)] for the 53-bit mantissa [m] and the shifted
    exponent [ex] that [frshiftexp] and [normfr_mantissa] decode (2154 is
    the shift 2101 plus the precision 53). *)
Definition exact_Z (x : float) : option Z :=
  if PrimFloat.is_nan x || PrimFloat.is_infinity x then None
  else if PrimFloat.is_zero x then Some 0%Z
  else
    let (r, ex) := PrimFloat.frshiftexp x in
    let m := PrimFloat.normfr_mantissa r in
    let bias := 2154%uint63 in
    let mag :=
      if (bias <=? ex)%uint63 then
        Some (Uint63.to_Z m * 2 ^ Uint63.to_Z (ex - bias)%uint63)%Z
      else
        let k := (bias - ex)%uint63 in
        if (((m >> k) << k) =? m)%uint63 then Some (Uint63.to_Z (m >> k)%uint63)
        else None in
    option_map (fun v => if PrimFloat.get_sign x then (- v)%Z else v) mag.

(** [p] holds of the [fuel] integers from [z] on. *)
Fixpoint all_from (fuel : nat) (z : Z) (p : Z -> bool) : bool :=
  match fuel with
  | O => true
  | S fuel' => p z && all_from fuel' (z + 1)%Z p
  end.

(** Two implementations of the filter interface: one whose filters return
    their input, and one whose filters flip the sign of every sample (so
    that an applied filter can be told from a skipped one). *)
Definition passthrough : scipy_signal.Filters :=
  {| scipy_signal.sos := unit;
     scipy_signal.ba := unit;
     scipy_signal.butter := fun _ _ _ _ => tt;
     scipy_signal.sosfiltfilt := fun _ x => x;
     scipy_signal.iirnotch := fun _ _ _ => tt;
     scipy_signal.filtfilt := fun _ x => x;
     scipy_signal.sosfiltfilt_length := fun _ _ => eq_refl;
     scipy_signal.filtfilt_length := fun _ _ => eq_refl |}.

Definition flipping : scipy_signal.Filters :=
  {| scipy_signal.sos := unit;
     scipy_signal.ba := unit;
     scipy_signal.butter := fun _ _ _ _ => tt;
     scipy_signal.sosfiltfilt := fun _ x => map PrimFloat.opp x;
     scipy_signal.iirnotch := fun _ _ _ => tt;
     scipy_signal.filtfilt := fun _ x => map PrimFloat.opp x;
     scipy_signal.sosfiltfilt_length := fun _ x => length_map PrimFloat.opp x;
     scipy_signal.filtfilt_length := fun _ x => length_map PrimFloat.opp x |}.

(** A paused analyzer: [toggle_pause()] on a fresh one. *)
Definition paused_analyzer : Analyzer := toggle_pause init.

(** A session on five samples received at t = 0: region selection mode on,
    clicks at 0 s and 1 s, and a detection run at threshold 20, which finds
    one spike; then the operator sets the threshold back to 100. *)
Definition analyzer_with_region : Analyzer :=
  let st := on_data_received init [10; 10; 40; 10; 10]%Z 0%float in
  let st := toggle_region_mode st 2 in
  let st := snd (on_mouse_clicked (F:=passthrough) st LeftButton 0%float) in
  snd (on_mouse_clicked (F:=passthrough) st LeftButton 1%float).

Definition analyzer_with_spike : Analyzer :=
  let st := set_threshold_spin 20%float analyzer_with_region in
  let st := snd (detect_spikes (F:=passthrough) st) in
  set_threshold_spin 100%float st.

(** Two left clicks in a row, at the times [a] and [b]. *)
Definition two_clicks {F : scipy_signal.Filters} (st : Analyzer)
           (a b : float) : Analyzer :=
  snd (on_mouse_clicked (snd (on_mouse_clicked st LeftButton a)) LeftButton b).

(** A region-selection session: selection mode on, two samples received. *)
Definition selecting_analyzer : Analyzer :=
  toggle_region_mode (on_data_received init [2048; 2050]%Z 0%float) 2.


(* ================================================================== *)
(** * The display refresh                                              *)
(* ================================================================== *)

(** The extended slice [a[::step]] for [step >= 1]: every [step]-th entry,
    starting with the first; [skip] entries are passed over before the next
    one is kept. *)
Fixpoint stride_from {A} (skip step : nat) (a : list A) : list A :=
  match a with
  | [] => []
  | x :: a' =>
      match skip with
      | O => x :: stride_from (step - 1) step a'
      | S skip' => stride_from skip' step a'
      end
  end.

Definition py_stride {A} (a : list A) (step : nat) : list A :=
  stride_from 0 step a.

(** What one call of [update_plot] hands to the plot and to the statistics
    labels: the curve, the axis ranges it sets ([None] when it sets none),
    the position of the zero line, and the five statistics ([None] is the
    text ["---"]). *)
Record PlotUpdate : Type := {
  curve_times : list float;
  curve_data : list float;
  x_range : option (float * float);
  y_range : option (float * float);
  zero_line : float;
  stats_samples : Z;
  stats_duration : option float;
  stats_rate : option float;
  stats_peak_to_peak : option float;
  stats_rms : option float
}.

(** How a call of [update_plot] ends: an early [return], a redraw, or an
    exception. *)
Inductive PlotResult : Type :=
| plot_skipped
| plot_drawn (update : PlotUpdate)
| plot_raised (e : exn).

Section Display.

Context {F : scipy_signal.Filters}.

(** [process_signal(data)] on an array that is [float64] already, as
    [update_plot] passes it: [data.copy().astype(float)] is then a plain
    copy. *)
Definition process_signal_float (st : Analyzer) (data : list float)
  : list float * Analyzer :=
  let processed := data in
  let any_filter_active :=
    highpass_enabled st || lowpass_enabled st || notch_enabled st in
  let (processed, dc) :=
    if any_filter_active then
      let dc := np.mean processed in
      (map (fun x => (x - dc)%float) processed, dc)
    else (processed, 2048%float) in
  let st := set_dc_offset dc st in
  let processed := highpass_stage st processed in
  let processed := lowpass_stage st processed in
  let processed := notch_stage st processed in
  (processed, st).

(** The window of [update_plot]: the samples not older than [window_size]
    before the last time stamp. *)
Definition visible_window (data times : list float) (window_size : float)
  : option (list float) * option (list float) :=
  if (0 <? length times)%nat then
    let cutoff_time := (last times 0 - window_size)%float in
    let mask := map (fun t => (cutoff_time <=? t)%float) times in
    (np.mask_index mask data, np.mask_index mask times)
  else (Some data, Some times).

(** The statistics block of [update_plot], read from the live buffers. *)
Definition duration_label (st : Analyzer) : option float :=
  let tb := deque.items (time_buffer st) in
  if (1 <? length tb)%nat then Some (last tb 0 - hd 0 tb)%float else None.

Definition rate_label (st : Analyzer) : option float :=
  let db := deque.items (data_buffer st) in
  let tb := deque.items (time_buffer st) in
  if (0 <? length db)%nat && (1 <? length tb)%nat then
    let time_span := (last tb 0 - hd 0 tb)%float in
    if (0 <? time_span)%float then
      Some (np.float_of_Z (Z.of_nat (length db)) / time_span)%float
    else None
  else None.

(** [update_plot()], with the values of the window spin box and of the two
    display check boxes ([self.auto_scroll], [self.auto_zoom]). *)
Definition update_plot (st : Analyzer) (window_size : float)
           (auto_scroll auto_zoom : bool) : PlotResult * Analyzer :=
  match get_data st with
  | snapshot_no_data => (plot_skipped, st)
  | snapshot_no_times => (plot_raised TypeError, st)
  | snapshot raw times =>
    let data := np.astype_float raw in
    match visible_window data times window_size with
    | (Some data, Some times) =>
      if (length data =? 0)%nat then (plot_skipped, st)
      else
        let (processed_data, st) := process_signal_float st data in
        let (display_times, display_data) :=
          if (10000 <? Z.of_nat (length processed_data))%Z then
            let step := Z.max 1 (Z.of_nat (length processed_data) / 10000) in
            (py_stride times (Z.to_nat step),
             py_stride processed_data (Z.to_nat step))
          else (times, processed_data) in
        let scroll :=
          if auto_scroll && negb (paused st) then
            if (0 <? length times)%nat then
              Some ((last times 0 - window_size)%float, last times 0%float)
            else None
          else None in
        let zoom :=
          if auto_zoom then
            if (0 <? length processed_data)%nat then
              let data_min := np.min processed_data in
              let data_max := np.max processed_data in
              let padding := ((data_max - data_min) * 0.1)%float in
              Some ((data_min - padding)%float, (data_max + padding)%float)
            else None
          else None in
        let zero :=
          if highpass_enabled st || lowpass_enabled st || notch_enabled st
          then 0%float else dc_offset st in
        let p2p :=
          if (0 <? length processed_data)%nat then
            Some (np.max processed_data - np.min processed_data)%float
          else None in
        let rms :=
          if (0 <? length processed_data)%nat then
            Some (PrimFloat.sqrt
                    (np.mean (map (fun x => (x * x)%float) processed_data)))
          else None in
        (plot_drawn {| curve_times := display_times;
                       curve_data := display_data;
                       x_range := scroll;
                       y_range := zoom;
                       zero_line := zero;
                       stats_samples := total_samples_received st;
                       stats_duration := duration_label st;
                       stats_rate := rate_label st;
                       stats_peak_to_peak := p2p;
                       stats_rms := rms |}, st)
    | _ => (plot_raised IndexError, st)
    end
  end.

End Display.

(* ================================================================== *)
(** * The serial reader's line framing                                 *)
(* ================================================================== *)

(** The text part of [SerialReader.run]: the decoded chunk is added to the
    buffer, complete lines are cut off at ['\n'], stripped and dispatched.
    A [str] is its list of code points.  The parsing of a data line (the
    inner [try] block, with [float], [int] and the [uint16] array) is not
    modelled: a data line is handed on as it is. *)
Module serial.

Definition str : Type := list N.

Definition newline : N := 10.
Definition hash : N := 35.

(** [str.isspace] on one code point (the characters that [strip] drops). *)
Definition isspace (c : N) : bool :=
  ((9 <=? c) && (c <=? 13) || (28 <=? c) && (c <=? 32)
   || (c =? 133) || (c =? 160) || (c =? 5760)
   || (8192 <=? c) && (c <=? 8202) || (c =? 8232) || (c =? 8233)
   || (c =? 8239) || (c =? 8287) || (c =? 12288))%N.

Fixpoint lstrip (s : str) : str :=
  match s with
  | c :: s' => if isspace c then lstrip s' else s
  | [] => []
  end.

Definition rstrip (s : str) : str := rev (lstrip (rev s)).

(** [s.strip()] *)
Definition strip (s : str) : str := rstrip (lstrip s).

(** [s.split('\n', 1)]: the text before the first newline and the text
    after it; [None] when [s] has no newline (['\n' in s] is false). *)
Fixpoint split_newline (s : str) : option (str * str) :=
  match s with
  | [] => None
  | c :: s' =>
      if (c =? newline)%N then Some ([], s')
      else match split_newline s' with
           | Some (line, rest) => Some (c :: line, rest)
           | None => None
           end
  end.

(** What is done with one line: a status message is emitted, or the line
    goes to the data parser. *)
Inductive Action : Type :=
| emit_status_message (message : str)
| parse_data_line (line : str).

(** The body of the [while '\n' in buffer:] loop after the split. *)
Definition dispatch (line : str) : list Action :=
  let line := strip line in
  match line with
  | [] => []
  | c :: rest =>
      if (c =? hash)%N then [emit_status_message (strip rest)]
      else [parse_data_line line]
  end.

(** The loop [while '\n' in buffer:]; every round removes at least the
    newline from the buffer, so [length buffer] rounds are enough. *)
Fixpoint read_lines (fuel : nat) (buffer : str) : list Action * str :=
  match fuel with
  | O => ([], buffer)
  | S fuel' =>
      match split_newline buffer with
      | None => ([], buffer)
      | Some (line, buffer') =>
          let (actions, rest) := read_lines fuel' buffer' in
          (dispatch line ++ actions, rest)
      end
  end.

(** One round of the reader with data waiting: [buffer += chunk] and the
    loop; the actions in order, and the buffer kept for the next round. *)
Definition receive_chunk (buffer chunk : str) : list Action * str :=
  let buffer := buffer ++ chunk in
  read_lines (length buffer) buffer.

(** A sequence of chunks, from the empty buffer of a fresh [run]. *)
Fixpoint receive_chunks (buffer : str) (chunks : list str)
  : list Action * str :=
  match chunks with
  | [] => ([], buffer)
  | chunk :: chunks' =>
      let (actions, buffer') := receive_chunk buffer chunk in
      let (actions', buffer'') := receive_chunks buffer' chunks' in
      (actions ++ actions', buffer'')
  end.

End serial.

(* ================================================================== *)
(** * Buttons                                                          *)
(* ================================================================== *)

(** The text of the connect button and the enabled flags of the pause,
    detect and clear-region buttons, as [setup_ui] leaves them. *)
Inductive ConnectText : Type := Connect | Disconnect.

Record Buttons : Type := {
  connect_btn : ConnectText;
  pause_btn : bool;
  detect_btn : bool;
  clear_region_btn : bool
}.

Definition setup_ui : Buttons :=
  {| connect_btn := Connect; pause_btn := false;
     detect_btn := false; clear_region_btn := false |}.

(** [toggle_connection()]: [port] tells whether the port combo box has a
    non-empty text and [connected] what [connect_to_port] returns. *)
Definition toggle_connection (b : Buttons) (port connected : bool) : Buttons :=
  match connect_btn b with
  | Connect =>
      if port && connected then
        {| connect_btn := Disconnect; pause_btn := true;
           detect_btn := detect_btn b;
           clear_region_btn := clear_region_btn b |}
      else b
  | Disconnect =>
      {| connect_btn := Connect; pause_btn := false;
         detect_btn := detect_btn b;
         clear_region_btn := clear_region_btn b |}
  end.

(** [on_connection_changed(connected)] *)
Definition on_connection_changed (b : Buttons) (connected : bool) : Buttons :=
  match connect_btn b with
  | Disconnect =>
      if negb connected then
        {| connect_btn := Connect; pause_btn := false;
           detect_btn := detect_btn b;
           clear_region_btn := clear_region_btn b |}
      else b
  | Connect => b
  end.

(** The two [setEnabled] calls of [clear_selected_region] and of the second
    click of [on_mouse_clicked]. *)
Definition set_region_buttons (enabled : bool) (b : Buttons) : Buttons :=
  {| connect_btn := connect_btn b; pause_btn := pause_btn b;
     detect_btn := enabled; clear_region_btn := enabled |}.

(** The buttons after [on_mouse_clicked]: they are enabled on the path that
    commits a region. *)
Definition on_mouse_clicked_buttons (st : Analyzer) (b : Buttons)
           (button : MouseButton) : Buttons :=
  if negb (region_selection_mode st) then b
  else
    match button with
    | OtherButton => b
    | LeftButton =>
      match get_data st with
      | snapshot_no_data => b
      | snapshot_no_times => b
      | snapshot _ times =>
        if (length times =? 0)%nat then b
        else
          match _region_start st with
          | None => b
          | Some _ => set_region_buttons true b
          end
      end
    end.

(** Everything that can happen to the window: the events of [Event], the
    refresh timer, the connect button and the reader's connection signal. *)
Inductive WindowEvent : Type :=
| Handled (ev : Event)
| PlotTimer (window_size : float) (auto_scroll auto_zoom : bool)
| ConnectClicked (port connected : bool)
| ConnectionChanged (connected : bool).

Definition handle_window {F : scipy_signal.Filters}
           (w : Analyzer * Buttons) (ev : WindowEvent) : Analyzer * Buttons :=
  let (st, b) := w in
  match ev with
  | Handled (MouseClicked button click_time) =>
      (handle st (MouseClicked button click_time),
       on_mouse_clicked_buttons st b button)
  | Handled DataCleared => (handle st DataCleared, set_region_buttons false b)
  | Handled RegionCleared =>
      (handle st RegionCleared, set_region_buttons false b)
  | Handled ev' => (handle st ev', b)
  | PlotTimer window_size auto_scroll auto_zoom =>
      (snd (update_plot st window_size auto_scroll auto_zoom), b)
  | ConnectClicked port connected => (st, toggle_connection b port connected)
  | ConnectionChanged connected => (st, on_connection_changed b connected)
  end.

Definition run_window {F : scipy_signal.Filters}
           (w : Analyzer * Buttons) (evs : list WindowEvent)
  : Analyzer * Buttons :=
  fold_left handle_window evs w.

(** The detect and clear-region buttons are enabled when a region is
    selected, and the pause button when the connect button reads
    "Disconnect". *)
Definition buttons_follow (w : Analyzer * Buttons) : Prop :=
  detect_btn (snd w)
  = match selected_region (fst w) with Some _ => true | None => false end /\
  clear_region_btn (snd w) = detect_btn (snd w) /\
  pause_btn (snd w)
  = match connect_btn (snd w) with Disconnect => true | Connect => false end.

(* ================================================================== *)
(** * Properties                                                       *)
(* ================================================================== *)

(** ** The primitives on small inputs *)

Example deque_extend_example :
  deque.items (deque.extend (deque.empty 3) [1; 2; 3; 4; 5]%Z) = [3; 4; 5]%Z.
Proof. reflexivity. Qed.

Example sign_diff_where_example :
  map np.sign [0; 5; -5; 5; -5; 0]%float = [0; 1; -1; 1; -1; 0]%float /\
  np.diff [0; 1; -1; 1; -1; 0]%float = [1; -2; 2; -2; 1]%float /\
  np.where_ [1; 0; 2; 0; -0; 3]%float = [0; 2; 5].
Proof. repeat split. Qed.

Example py_int_example :
  py_int 2.75%float = inl 2%Z /\ py_int (-2.75)%float = inl (-2)%Z /\
  py_int (0.05 * 10000)%float = inl 500%Z /\
  py_int PrimFloat.nan = inr ValueError /\
  py_int PrimFloat.infinity = inr OverflowError.
Proof. repeat split. Qed.

Example exact_Z_example :
  exact_Z 65535%float = Some 65535%Z /\ exact_Z (-3)%float = Some (-3)%Z /\
  exact_Z 0.5%float = None /\ exact_Z 2.5%float = None /\
  exact_Z PrimFloat.infinity = None.
Proof. repeat split. Qed.

(** Three maxima (the plateau 5, 5 reported at its left middle); at a
    distance of 5 samples only the highest survives. *)
Example find_peaks_example :
  let x := [0; 1; 3; 1; 0; 2; 5; 5; 2; 0; 4; 0]%float in
  scipy_signal.find_peaks x 2%float 1 = Some [2; 6; 10] /\
  scipy_signal.find_peaks x 3.5%float 1 = Some [6; 10] /\
  scipy_signal.find_peaks x 2%float 5 = Some [6] /\
  scipy_signal.find_peaks x 6%float 1 = Some [] /\
  scipy_signal.find_peaks x 2%float 0 = None.
Proof. cbv zeta. repeat split. Qed.

(** ** Order of binary64 numbers

    The comparisons of primitive floats are specified through [SFcompare] on
    their decoded form; the facts below are what the analyzer's guards need:
    [<] and [<=] exclude each other's converse, numbers are totally ordered,
    and numbers that compare equal compare alike with every third one. *)
Module FloatOrder.

Lemma compare_antisym (x y : spec_float) :
  SFcompare y x = option_map CompOpp (SFcompare x y).
Proof.
  destruct x as [sx | sx | | sx mx ex], y as [sy | sy | | sy my ey];
    simpl; try reflexivity;
    try (destruct sx; reflexivity); try (destruct sy; reflexivity);
    try (destruct sx, sy; reflexivity).
  destruct sx, sy; simpl; try reflexivity;
    rewrite (Z.compare_antisym ex ey);
    destruct (ex ?= ey)%Z; simpl; try reflexivity;
    change (Pcompare my mx Eq) with (my ?= mx)%positive;
    change (Pcompare mx my Eq) with (mx ?= my)%positive;
    rewrite (Pos.compare_antisym mx my);
    destruct (mx ?= my)%positive; reflexivity.
Qed.

Lemma compare_refl (x : spec_float) :
  x <> S754_nan -> SFcompare x x = Some Eq.
Proof.
  destruct x as [s | s | | s m e]; simpl; intros H;
    try reflexivity; try (destruct s; reflexivity); try congruence.
  change (Pcompare m m Eq) with (m ?= m)%positive.
  destruct s; rewrite Z.compare_refl, Pos.compare_refl; reflexivity.
Qed.

Lemma compare_total (x y : spec_float) :
  x <> S754_nan -> y <> S754_nan -> exists c, SFcompare x y = Some c.
Proof.
  destruct x, y; simpl; intros Hx Hy; try congruence; eauto.
Qed.

Lemma compare_Eq_finite s1 m1 e1 s2 m2 e2 :
  SFcompare (S754_finite s1 m1 e1) (S754_finite s2 m2 e2) = Some Eq ->
  s1 = s2 /\ m1 = m2 /\ e1 = e2.
Proof.
  simpl. change (Pcompare m1 m2 Eq) with (m1 ?= m2)%positive.
  destruct s1, s2; try discriminate;
    destruct (e1 ?= e2)%Z eqn:He; try discriminate;
    destruct (m1 ?= m2)%positive eqn:Hm; try discriminate;
    intros _; apply Z.compare_eq in He; apply Pos.compare_eq in Hm;
    auto.
Qed.

(** Numbers that compare equal compare alike with any third number. *)
Lemma compare_Eq_l (x y z : spec_float) :
  SFcompare x y = Some Eq -> SFcompare x z = SFcompare y z.
Proof.
  destruct x as [sx | sx | | sx mx ex], y as [sy | sy | | sy my ey];
    try (simpl; discriminate);
    try (simpl; destruct sx; discriminate);
    try (simpl; destruct sy; discriminate).
  - intros _. destruct z; reflexivity.
  - destruct sx, sy; simpl; try discriminate; reflexivity.
  - intros H. apply compare_Eq_finite in H.
    destruct H as (-> & -> & ->). reflexivity.
Qed.

Lemma compare_Eq_r (x y z : spec_float) :
  SFcompare x y = Some Eq -> SFcompare z x = SFcompare z y.
Proof.
  intros H. rewrite (compare_antisym x z), (compare_antisym y z).
  now rewrite (compare_Eq_l x y z H).
Qed.

Lemma is_nan_spec (a : float) :
  PrimFloat.is_nan a = false -> Prim2SF a <> S754_nan.
Proof.
  unfold PrimFloat.is_nan. rewrite FloatAxioms.eqb_spec. intros H E.
  rewrite E in H. discriminate.
Qed.

(** [a < b] excludes [b <= a]. *)
Lemma ltb_not_leb (a b : float) :
  (a <? b)%float = true -> (b <=? a)%float = false.
Proof.
  rewrite FloatAxioms.ltb_spec, FloatAxioms.leb_spec. unfold SFltb, SFleb.
  rewrite (compare_antisym (Prim2SF a) (Prim2SF b)).
  destruct (SFcompare (Prim2SF a) (Prim2SF b)) as [[ | | ] | ];
    simpl; congruence.
Qed.

(** [a <= b] excludes [b < a]. *)
Lemma leb_not_ltb (a b : float) :
  (a <=? b)%float = true -> (b <? a)%float = false.
Proof.
  rewrite FloatAxioms.ltb_spec, FloatAxioms.leb_spec. unfold SFltb, SFleb.
  rewrite (compare_antisym (Prim2SF a) (Prim2SF b)).
  destruct (SFcompare (Prim2SF a) (Prim2SF b)) as [[ | | ] | ];
    simpl; congruence.
Qed.

Lemma ltb_leb (a b : float) :
  (a <? b)%float = true -> (a <=? b)%float = true.
Proof.
  rewrite FloatAxioms.ltb_spec, FloatAxioms.leb_spec. unfold SFltb, SFleb.
  destruct (SFcompare (Prim2SF a) (Prim2SF b)) as [[ | | ] | ];
    simpl; congruence.
Qed.

(** Totality on numbers: when [b < a] fails, [a <= b]. *)
Lemma not_ltb_leb (a b : float) :
  PrimFloat.is_nan a = false -> PrimFloat.is_nan b = false ->
  (b <? a)%float = false -> (a <=? b)%float = true.
Proof.
  intros Ha Hb. apply is_nan_spec in Ha, Hb.
  rewrite FloatAxioms.ltb_spec, FloatAxioms.leb_spec. unfold SFltb, SFleb.
  rewrite (compare_antisym (Prim2SF a) (Prim2SF b)).
  destruct (compare_total _ _ Ha Hb) as [c ->].
  destruct c; simpl; congruence.
Qed.

(** Numbers of which neither is below the other bound the same values. *)
Lemma unordered_same_bounds (a b t : float) :
  PrimFloat.is_nan a = false -> PrimFloat.is_nan b = false ->
  (a <? b)%float = false -> (b <? a)%float = false ->
  (a <=? t)%float = (b <=? t)%float /\ (t <=? a)%float = (t <=? b)%float.
Proof.
  intros Ha Hb. apply is_nan_spec in Ha, Hb.
  rewrite !FloatAxioms.ltb_spec, !FloatAxioms.leb_spec. unfold SFltb, SFleb.
  rewrite (compare_antisym (Prim2SF a) (Prim2SF b)).
  destruct (compare_total _ _ Ha Hb) as [c Hc]. rewrite Hc.
  destruct c; simpl; try congruence. intros _ _.
  now rewrite (compare_Eq_l _ _ _ Hc), (compare_Eq_r _ _ _ Hc).
Qed.

End FloatOrder.

(** ** The bounded deque *)
Module DequeFacts.

Lemma lastn_length {A} (n : Z) (l : list A) :
  length (lastn n l) = Nat.min (length l) (Z.to_nat n).
Proof. unfold lastn. rewrite length_skipn. lia. Qed.

Lemma lastn_all {A} (n : Z) (l : list A) :
  (Z.of_nat (length l) <= n)%Z -> lastn n l = l.
Proof.
  intros H. unfold lastn.
  replace (length l - Z.to_nat n) with 0 by lia. reflexivity.
Qed.

(** Trimming twice is trimming once. *)
Lemma lastn_app_lastn {A} (n : Z) (l xs : list A) :
  lastn n (lastn n l ++ xs) = lastn n (l ++ xs).
Proof.
  unfold lastn. set (k := length l - Z.to_nat n).
  assert (Hk : k <= length l) by (subst k; lia).
  replace (skipn k l ++ xs) with (skipn k (l ++ xs)).
  2:{ rewrite skipn_app. replace (k - length l) with 0 by lia. reflexivity. }
  rewrite skipn_skipn. f_equal.
  rewrite length_skipn, !length_app. subst k. lia.
Qed.

Lemma append_maxlen {A} (d : deque.t A) (x : A) :
  deque.maxlen (deque.append d x) = deque.maxlen d.
Proof. reflexivity. Qed.

Lemma extend_maxlen {A} (xs : list A) (d : deque.t A) :
  deque.maxlen (deque.extend d xs) = deque.maxlen d.
Proof.
  revert d. induction xs as [ | x xs IH]; intros d; [reflexivity | ].
  change (deque.extend d (x :: xs))
    with (deque.extend (deque.append d x) xs).
  now rewrite IH.
Qed.

(** One [append] keeps the last [maxlen] elements. *)
Lemma append_items {A} (d : deque.t A) (x : A) :
  (Z.of_nat (length (deque.items d)) <= deque.maxlen d)%Z ->
  deque.items (deque.append d x)
  = lastn (deque.maxlen d) (deque.items d ++ [x]).
Proof.
  intros H. unfold deque.append, lastn. simpl.
  rewrite length_app. simpl.
  destruct (Z.ltb_spec (deque.maxlen d)
                       (Z.of_nat (length (deque.items d) + 1))) as [Hlt | Hge].
  - replace (length (deque.items d) + 1 - Z.to_nat (deque.maxlen d)) with 1
      by lia.
    reflexivity.
  - replace (length (deque.items d) + 1 - Z.to_nat (deque.maxlen d)) with 0
      by lia.
    reflexivity.
Qed.

Lemma append_bounded {A} (d : deque.t A) (x : A) :
  (0 <= deque.maxlen d)%Z ->
  (Z.of_nat (length (deque.items d)) <= deque.maxlen d)%Z ->
  (Z.of_nat (length (deque.items (deque.append d x))) <= deque.maxlen d)%Z.
Proof.
  intros H0 H. rewrite append_items by assumption.
  rewrite lastn_length, length_app. simpl. lia.
Qed.

(** [extend] keeps the last [maxlen] elements of the old content followed
    by the new elements, in that order. *)
Lemma extend_items {A} (xs : list A) (d : deque.t A) :
  (0 <= deque.maxlen d)%Z ->
  (Z.of_nat (length (deque.items d)) <= deque.maxlen d)%Z ->
  deque.items (deque.extend d xs)
  = lastn (deque.maxlen d) (deque.items d ++ xs).
Proof.
  revert d. induction xs as [ | x xs IH]; intros d H0 H.
  - simpl. rewrite app_nil_r. symmetry. now apply lastn_all.
  - change (deque.extend d (x :: xs))
      with (deque.extend (deque.append d x) xs).
    rewrite IH.
    + rewrite append_maxlen, append_items by assumption.
      rewrite lastn_app_lastn, <- app_assoc. reflexivity.
    + now rewrite append_maxlen.
    + rewrite append_maxlen. now apply append_bounded.
Qed.

Lemma extend_bounded {A} (xs : list A) (d : deque.t A) :
  (0 <= deque.maxlen d)%Z ->
  (Z.of_nat (length (deque.items d)) <= deque.maxlen d)%Z ->
  (Z.of_nat (length (deque.items (deque.extend d xs))) <= deque.maxlen d)%Z.
Proof.
  intros H0 H. rewrite extend_items by assumption.
  rewrite lastn_length. lia.
Qed.

End DequeFacts.

(** ** Acquisition *)

(** What a batch does to an analyzer that is not paused. *)
Lemma on_data_received_running (st : Analyzer) (samples : list Z)
      (timestamp : float) :
  paused st = false ->
  let st' := on_data_received st samples timestamp in
  data_buffer st' = deque.extend (data_buffer st) samples /\
  time_buffer st' = deque.extend (time_buffer st)
                                 (batch_times (length samples) timestamp) /\
  total_samples_received st'
  = (total_samples_received st + Z.of_nat (length samples))%Z /\
  paused st' = false.
Proof.
  intros Hp. unfold on_data_received. rewrite Hp. simpl. auto.
Qed.

Lemma batch_times_length (n : nat) (timestamp : float) :
  length (batch_times n timestamp) = n.
Proof.
  unfold batch_times, np.arange. now rewrite !length_map, length_seq.
Qed.

Lemma all_times_length (batches : list (list Z * float)) :
  length (all_times batches) = length (all_samples batches).
Proof.
  unfold all_times, all_samples.
  induction batches as [ | [samples timestamp] batches IH]; simpl.
  - reflexivity.
  - rewrite !length_app, batch_times_length. now rewrite IH.
Qed.

(** The buffers after a run of batches, from any running analyzer whose
    buffers respect their capacity. *)
Lemma receive_all_running (batches : list (list Z * float)) :
  forall st : Analyzer,
    paused st = false ->
    (0 <= deque.maxlen (data_buffer st))%Z ->
    (0 <= deque.maxlen (time_buffer st))%Z ->
    (Z.of_nat (length (deque.items (data_buffer st)))
     <= deque.maxlen (data_buffer st))%Z ->
    (Z.of_nat (length (deque.items (time_buffer st)))
     <= deque.maxlen (time_buffer st))%Z ->
    let st' := receive_all st batches in
    deque.items (data_buffer st')
    = lastn (deque.maxlen (data_buffer st))
            (deque.items (data_buffer st) ++ all_samples batches) /\
    deque.items (time_buffer st')
    = lastn (deque.maxlen (time_buffer st))
            (deque.items (time_buffer st) ++ all_times batches) /\
    total_samples_received st'
    = (total_samples_received st
       + Z.of_nat (length (all_samples batches)))%Z.
Proof.
  induction batches as [ | [samples timestamp] batches IH];
    intros st Hp Hd0 Ht0 Hd Ht; cbv zeta.
  - simpl. rewrite !app_nil_r, !DequeFacts.lastn_all by assumption.
    repeat split. lia.
  - change (receive_all st ((samples, timestamp) :: batches))
      with (receive_all (on_data_received st samples timestamp) batches).
    destruct (on_data_received_running st samples timestamp Hp)
      as (Ed & Et & En & Hp').
    set (st1 := on_data_received st samples timestamp) in *.
    assert (Md : deque.maxlen (data_buffer st1) = deque.maxlen (data_buffer st))
      by (rewrite Ed; apply DequeFacts.extend_maxlen).
    assert (Mt : deque.maxlen (time_buffer st1) = deque.maxlen (time_buffer st))
      by (rewrite Et; apply DequeFacts.extend_maxlen).
    specialize (IH st1 Hp').
    rewrite Md, Mt in IH.
    destruct IH as (Id & It & In); try assumption.
    + rewrite Ed. now apply DequeFacts.extend_bounded.
    + rewrite Et. now apply DequeFacts.extend_bounded.
    + rewrite Id, It, In, En, Ed, Et.
      rewrite !DequeFacts.extend_items by assumption.
      rewrite !DequeFacts.lastn_app_lastn, <- !app_assoc.
      unfold all_samples, all_times. simpl.
      rewrite length_app. repeat split. lia.
Qed.

(** C1, as the code has it: a batch delivered while the analyzer is paused is
    dropped (both buffers and the counter of received samples keep their
    values: the analyzer is unchanged); a batch delivered while it is
    running extends both buffers and adds its length to the counter. *)
Theorem on_data_received_respects_pause (st : Analyzer) (samples : list Z)
        (timestamp : float) :
  (paused st = true -> on_data_received st samples timestamp = st) /\
  (paused st = false ->
   let st' := on_data_received st samples timestamp in
   data_buffer st' = deque.extend (data_buffer st) samples /\
   time_buffer st' = deque.extend (time_buffer st)
                                  (batch_times (length samples) timestamp) /\
   total_samples_received st'
   = (total_samples_received st + Z.of_nat (length samples))%Z).
Proof.
  split.
  - intros Hp. unfold on_data_received. now rewrite Hp.
  - intros Hp. pose proof (on_data_received_running st samples timestamp Hp) as H.
    cbv zeta in *. tauto.
Qed.

(** The paused analyzer drops the batch [2048]; a fresh one stores it. *)
Lemma on_data_received_respects_pause_witness :
  on_data_received paused_analyzer [2048%Z] 0%float = paused_analyzer /\
  deque.items (data_buffer (on_data_received init [2048%Z] 0%float)) = [2048%Z] /\
  total_samples_received (on_data_received init [2048%Z] 0%float) = 1%Z.
Proof.
  destruct (on_data_received_respects_pause paused_analyzer [2048%Z] 0%float)
    as [Hpaused _].
  destruct (on_data_received_respects_pause init [2048%Z] 0%float)
    as [_ Hrunning].
  split; [apply Hpaused; reflexivity | ].
  destruct (Hrunning eq_refl) as (Ed & _ & En).
  rewrite Ed, En. split; reflexivity.
Defined.

(** C1 as stated fails: the analyzer below is paused, the batch is not
    empty, and neither buffer is extended nor is the batch counted. *)
Lemma paused_batch_is_dropped :
  let st := paused_analyzer in
  let st' := on_data_received st [2048%Z] 0%float in
  paused st = true /\
  data_buffer st' <> deque.extend (data_buffer st) [2048%Z] /\
  time_buffer st' <> deque.extend (time_buffer st) (batch_times 1 0%float) /\
  total_samples_received st' <> (total_samples_received st + 1)%Z /\
  deque.len (data_buffer st') = 0 /\
  deque.len (time_buffer st') = 0 /\
  total_samples_received st' = 0%Z.
Proof.
  cbv zeta. repeat split; try reflexivity; vm_compute; discriminate.
Qed.

(** C3: after any sequence of batches delivered to a fresh analyzer the two
    channels have the same length and each holds the most recent
    [max_samples] (300,000) entries of everything appended, in order of
    arrival: all of them up to 300,000 samples, exactly 300,000 beyond. *)
Theorem buffer_keeps_most_recent (batches : list (list Z * float)) :
  let st := receive_all init batches in
  length (deque.items (time_buffer st)) = length (deque.items (data_buffer st)) /\
  deque.items (data_buffer st) = lastn max_samples (all_samples batches) /\
  deque.items (time_buffer st) = lastn max_samples (all_times batches) /\
  Z.of_nat (length (deque.items (data_buffer st)))
  = Z.min max_samples (Z.of_nat (length (all_samples batches))).
Proof.
  assert (Hcap : (0 <= max_samples)%Z) by (unfold max_samples; lia).
  destruct (receive_all_running batches init) as (Ed & Et & _);
    try reflexivity; try (simpl; lia).
  cbv zeta. change (deque.maxlen (data_buffer init)) with max_samples in Ed.
  change (deque.maxlen (time_buffer init)) with max_samples in Et.
  simpl in Ed, Et. rewrite Ed, Et.
  rewrite !DequeFacts.lastn_length, all_times_length.
  repeat split; lia.
Qed.

(** C10: [clear_data] empties both channels, resets the counter of received
    samples, and clears the active region, the pending first click and the
    detected spikes. *)
Theorem clear_data_cascades (st : Analyzer) :
  let st' := clear_data st in
  deque.items (data_buffer st') = [] /\
  deque.items (time_buffer st') = [] /\
  total_samples_received st' = 0%Z /\
  selected_region st' = None /\
  _region_start st' = None /\
  detected_spikes st' = [].
Proof. cbv zeta. repeat split. Qed.

(** ** The filter chain *)

(** Telling two float lists apart by the sign of their first entries. *)
Ltac differ_at_head :=
  let H := fresh in
  intro H;
  apply (f_equal (fun l : list float =>
                    match l with
                    | a :: _ => (a <? 0)%float
                    | [] => false
                    end)) in H;
  vm_compute in H; discriminate H.

Lemma all_from_spec (p : Z -> bool) (fuel : nat) :
  forall z0 : Z,
    all_from fuel z0 p = true ->
    forall z : Z, (z0 <= z < z0 + Z.of_nat fuel)%Z -> p z = true.
Proof.
  induction fuel as [ | fuel IH]; intros z0 H z Hz; [lia | ].
  simpl in H. apply andb_prop in H. destruct H as [Hz0 Hrest].
  destruct (Z.eq_dec z z0) as [-> | Hne]; [assumption | ].
  apply (IH (z0 + 1)%Z Hrest). lia.
Qed.

(** [uint16 -> float64] loses nothing: every sample value is represented
    exactly. *)
Lemma float_of_uint16_exact (z : Z) :
  (0 <= z < 65536)%Z -> exact_Z (np.float_of_Z z) = Some z.
Proof.
  intros Hz.
  assert (Hall : all_from (Z.to_nat 65536) 0
                          (fun n => match exact_Z (np.float_of_Z n) with
                                    | Some z' => (z' =? n)%Z
                                    | None => false
                                    end) = true)
    by (vm_compute; reflexivity).
  pose proof (all_from_spec _ _ _ Hall z) as Hz'.
  rewrite Z2Nat.id in Hz' by lia. specialize (Hz' Hz).
  destruct (exact_Z (np.float_of_Z z)) as [z' | ]; [ | discriminate Hz'].
  f_equal. now apply Z.eqb_eq.
Qed.

Section FilterChainFacts.

Context {F : scipy_signal.Filters}.

Lemma highpass_stage_length (st : Analyzer) (x : list float) :
  length (highpass_stage st x) = length x.
Proof.
  unfold highpass_stage.
  destruct (highpass_enabled st && (100 <? length x)); [ | reflexivity].
  apply scipy_signal.sosfiltfilt_length.
Qed.

Lemma lowpass_stage_length (st : Analyzer) (x : list float) :
  length (lowpass_stage st x) = length x.
Proof.
  unfold lowpass_stage.
  destruct (lowpass_enabled st && (100 <? length x)); [ | reflexivity].
  apply scipy_signal.sosfiltfilt_length.
Qed.

Lemma notch_stage_length (st : Analyzer) (x : list float) :
  length (notch_stage st x) = length x.
Proof.
  unfold notch_stage.
  destruct (notch_enabled st && (100 <? length x)); [ | reflexivity].
  apply scipy_signal.filtfilt_length.
Qed.

Lemma remove_dc_length (st : Analyzer) (data : list Z) :
  length (fst (remove_dc st data)) = length data.
Proof.
  unfold remove_dc, np.astype_float.
  destruct (highpass_enabled st || lowpass_enabled st || notch_enabled st);
    simpl; now rewrite ?length_map.
Qed.

(** The chain in terms of its stages. *)
Lemma process_signal_stages (st : Analyzer) (data : list Z) :
  process_signal st data
  = (let st' := set_dc_offset (snd (remove_dc st data)) st in
     (notch_stage st' (lowpass_stage st' (highpass_stage st'
                                            (fst (remove_dc st data)))),
      st')).
Proof.
  unfold process_signal. destruct (remove_dc st data). reflexivity.
Qed.

(** The output has as many samples as the input. *)
Lemma process_signal_length (st : Analyzer) (data : list Z) :
  length (fst (process_signal st data)) = length data.
Proof.
  rewrite process_signal_stages. cbv zeta. simpl.
  rewrite notch_stage_length, lowpass_stage_length, highpass_stage_length.
  apply remove_dc_length.
Qed.

(** With every stage disabled the chain only converts the samples. *)
Lemma process_signal_disabled (st : Analyzer) (data : list Z) :
  highpass_enabled st = false ->
  lowpass_enabled st = false ->
  notch_enabled st = false ->
  process_signal st data
  = (np.astype_float data, set_dc_offset 2048%float st).
Proof.
  intros Hh Hl Hn. rewrite process_signal_stages.
  unfold remove_dc, highpass_stage, lowpass_stage, notch_stage.
  rewrite Hh, Hl, Hn. simpl. rewrite Hh, Hl, Hn. reflexivity.
Qed.

(** C4: with the high-pass, low-pass and notch stages disabled the chain
    returns its input: as many samples, the offset left at its nominal
    2048 with nothing subtracted, and every output sample the exact value
    of the corresponding ADC sample. *)
Theorem process_signal_noop_is_identity (st : Analyzer) (data : list Z) :
  highpass_enabled st = false ->
  lowpass_enabled st = false ->
  notch_enabled st = false ->
  fst (process_signal st data) = np.astype_float data /\
  dc_offset (snd (process_signal st data)) = 2048%float /\
  length (fst (process_signal st data)) = length data /\
  (Forall (fun z => (0 <= z < 65536)%Z) data ->
   map exact_Z (fst (process_signal st data)) = map Some data).
Proof.
  intros Hh Hl Hn.
  rewrite (process_signal_disabled st data Hh Hl Hn). simpl.
  repeat split.
  - unfold np.astype_float. apply length_map.
  - intros Hdata. unfold np.astype_float. rewrite map_map.
    apply map_ext_in. intros z Hz.
    rewrite Forall_forall in Hdata.
    apply float_of_uint16_exact. now apply Hdata.
Qed.

(** C5, as the code has it: an enabled stage runs its filter on more than
    100 samples (101 or more) and returns up to 100 samples unchanged. *)
Theorem stages_need_more_than_100_samples (st : Analyzer)
        (processed : list float) :
  (100 < length processed ->
   (highpass_enabled st = true ->
    highpass_stage st processed
    = scipy_signal.sosfiltfilt
        (scipy_signal.butter 4 (highpass_spin st) scipy_signal.hp sample_rate)
        processed) /\
   (lowpass_enabled st = true ->
    lowpass_stage st processed
    = scipy_signal.sosfiltfilt
        (scipy_signal.butter 4 (lowpass_spin st) scipy_signal.lp sample_rate)
        processed) /\
   (notch_enabled st = true ->
    notch_stage st processed
    = scipy_signal.filtfilt
        (scipy_signal.iirnotch (notch_freq_spin st) (notch_q_spin st) sample_rate)
        processed)) /\
  (length processed <= 100 ->
   highpass_stage st processed = processed /\
   lowpass_stage st processed = processed /\
   notch_stage st processed = processed).
Proof.
  unfold highpass_stage, lowpass_stage, notch_stage. split; intros Hlen.
  - apply Nat.ltb_lt in Hlen. rewrite Hlen.
    repeat split; intros ->; reflexivity.
  - apply Nat.ltb_ge in Hlen. rewrite Hlen, !andb_false_r. auto.
Qed.

End FilterChainFacts.

(** No stage enabled: the samples [7; 9] come out as [7.0; 9.0]. *)
Lemma process_signal_noop_is_identity_witness :
  fst (process_signal (F:=passthrough)
         (toggle_notch (toggle_highpass init 0) 0) [7; 9]%Z)
  = [7; 9]%float.
Proof.
  exact (proj1 (process_signal_noop_is_identity (F:=passthrough)
                  (toggle_notch (toggle_highpass init 0) 0) [7; 9]%Z
                  eq_refl eq_refl eq_refl)).
Defined.

(** On 101 samples the enabled high-pass stage runs its filter; on 100 it
    does not. *)
Lemma stages_need_more_than_100_samples_witness :
  highpass_stage (F:=flipping) init (repeat 1%float 101)
  = repeat (-1)%float 101 /\
  highpass_stage (F:=flipping) init (repeat 1%float 100)
  = repeat 1%float 100.
Proof.
  split.
  - destruct (stages_need_more_than_100_samples (F:=flipping) init
                (repeat 1%float 101)) as [Hlong _].
    destruct Hlong as (Hhp & _ & _).
    + rewrite repeat_length. lia.
    + rewrite Hhp by reflexivity. reflexivity.
  - destruct (stages_need_more_than_100_samples (F:=flipping) init
                (repeat 1%float 100)) as [_ Hshort].
    destruct Hshort as (Hhp & _ & _).
    + rewrite repeat_length. lia.
    + exact Hhp.
Defined.

(** C5 as stated fails at exactly 100 samples: the high-pass and notch
    stages are enabled, the input has 100 samples, and both stages return
    the input instead of the output of their filter. *)
Lemma stage_skipped_at_100_samples :
  let x := repeat 1%float 100 in
  highpass_enabled init = true /\
  notch_enabled init = true /\
  length x = 100 /\
  highpass_stage (F:=flipping) init x = x /\
  highpass_stage (F:=flipping) init x
  <> @scipy_signal.sosfiltfilt flipping
       (@scipy_signal.butter flipping 4 (highpass_spin init) scipy_signal.hp
                             sample_rate) x /\
  notch_stage (F:=flipping) init x = x /\
  notch_stage (F:=flipping) init x
  <> @scipy_signal.filtfilt flipping
       (@scipy_signal.iirnotch flipping (notch_freq_spin init)
                               (notch_q_spin init) sample_rate) x.
Proof.
  cbv zeta. repeat split; try reflexivity; differ_at_head.
Qed.


(** ** Region extraction *)

Lemma mask_index_map {A B} (f : A -> B) (mask : list bool) :
  forall a : list A,
    np.mask_index mask (map f a) = option_map (map f) (np.mask_index mask a).
Proof.
  induction mask as [ | b mask IH]; intros [ | x a]; simpl; try reflexivity.
  rewrite IH. destruct (np.mask_index mask a); simpl; [ | reflexivity].
  now destruct b.
Qed.

Lemma mask_index_same_length {A} (mask : list bool) :
  forall a : list A,
    length a = length mask -> exists r, np.mask_index mask a = Some r.
Proof.
  induction mask as [ | b mask IH]; intros [ | x a] H; simpl in *;
    try discriminate; eauto.
  destruct (IH a) as [r ->]; [congruence | eauto].
Qed.

Lemma region_mask_length (times : list float) (s e : float) :
  length (region_mask times s e) = length times.
Proof. unfold region_mask. apply length_map. Qed.

(** Masking by [region_mask] is the inclusive slice of the specification:
    the times within the bounds, and the amplitudes recorded at them, in
    input order. *)
Lemma mask_index_region_mask {A} (s e : float) (times : list float) :
  forall amplitudes : list A,
    length amplitudes = length times ->
    np.mask_index (region_mask times s e) times
    = Some (fst (Spec.extract times amplitudes s e)) /\
    np.mask_index (region_mask times s e) amplitudes
    = Some (snd (Spec.extract times amplitudes s e)).
Proof.
  unfold Spec.extract.
  induction times as [ | t times IH]; intros [ | x amplitudes] H;
    simpl in *; try discriminate; [split; reflexivity | ].
  destruct (IH amplitudes) as [Ht Ha]; [congruence | ].
  rewrite Ht, Ha. unfold Spec.in_bounds.
  destruct ((s <=? t)%float && (t <=? e)%float); split; reflexivity.
Qed.

(** The times kept are exactly those within the bounds. *)
Lemma extract_times (s e : float) {A} (times : list float) :
  forall amplitudes : list A,
    length amplitudes = length times ->
    fst (Spec.extract times amplitudes s e)
    = filter (Spec.in_bounds s e) times.
Proof.
  unfold Spec.extract.
  induction times as [ | t times IH]; intros [ | x amplitudes] H;
    simpl in *; try discriminate; [reflexivity | ].
  specialize (IH amplitudes ltac:(congruence)).
  destruct (Spec.in_bounds s e t); simpl; now rewrite IH.
Qed.

Section RegionFacts.

Context {F : scipy_signal.Filters}.

(** C2, as the code has it: filtering precedes region extraction.  On a
    snapshot with a sample in the region, the region samples are the
    inclusive slice of the filtered whole snapshot; they are the filtered
    slice of the raw snapshot when the three filter stages are disabled. *)
Theorem extract_region_filters_first (st : Analyzer) (data : list Z)
        (times : list float) (start_time end_time : float) :
  length data = length times ->
  np.any (region_mask times start_time end_time) = true ->
  fst (extract_region st data times start_time end_time)
  = (let (region_times, region_data) :=
       Spec.extract times (fst (process_signal st data)) start_time end_time in
     in_region region_times region_data) /\
  (highpass_enabled st = false ->
   lowpass_enabled st = false ->
   notch_enabled st = false ->
   fst (extract_region st data times start_time end_time)
   = (let (region_times, region_data) :=
        Spec.extract_then_filter st data times start_time end_time in
      in_region region_times region_data)).
Proof.
  intros Hlen Hany.
  assert (Hcode :
            fst (extract_region st data times start_time end_time)
            = (let (region_times, region_data) :=
                 Spec.extract times (fst (process_signal st data))
                              start_time end_time in
               in_region region_times region_data)).
  { unfold extract_region.
    pose proof (process_signal_length st data) as Hp.
    destruct (process_signal st data) as [processed st'].
    cbn [fst] in Hp |- *. rewrite Hany. cbn [negb].
    destruct (mask_index_region_mask start_time end_time times processed)
      as [Ht Hd]; [congruence | ].
    rewrite Ht, Hd.
    destruct (Spec.extract times processed start_time end_time).
    reflexivity. }
  split; [exact Hcode | ].
  intros Hh Hl Hn. rewrite Hcode.
  unfold Spec.extract_then_filter.
  rewrite (process_signal_disabled st data Hh Hl Hn). cbn [fst].
  change (np.astype_float data) with (map np.float_of_Z data).
  destruct (mask_index_region_mask start_time end_time times
                               (map np.float_of_Z data)) as [Ht Hd];
    [rewrite length_map; exact Hlen | ].
  destruct (mask_index_region_mask start_time end_time times data) as [Ht' Hd'];
    [exact Hlen | ].
  rewrite mask_index_map, Hd' in Hd. rewrite Ht' in Ht. cbn [option_map] in Hd.
  destruct (Spec.extract times data start_time end_time) as [rt rd].
  destruct (Spec.extract times (map np.float_of_Z data) start_time end_time)
    as [rt' rd'].
  cbn [fst snd] in Ht, Hd.
  rewrite (process_signal_disabled st rd Hh Hl Hn). cbn [fst].
  unfold np.astype_float. congruence.
Qed.

End RegionFacts.

(** On the samples [0; 4] at times [0; 1] and the region [0, 0], with no
    stage enabled, the region sample is 0.0 either way. *)
Lemma extract_region_filters_first_witness :
  fst (extract_region (F:=passthrough)
         (toggle_notch (toggle_highpass init 0) 0)
         [0; 4]%Z [0; 1]%float 0%float 0%float)
  = in_region [0%float] [0%float].
Proof.
  exact (proj2 (extract_region_filters_first (F:=passthrough)
                  (toggle_notch (toggle_highpass init 0) 0)
                  [0; 4]%Z [0; 1]%float 0%float 0%float eq_refl eq_refl)
               eq_refl eq_refl eq_refl).
Defined.

(** C2 as stated fails: with the default configuration (high-pass and notch
    enabled), on the samples [0; 4] at times [0; 1] and the region [0, 0],
    the code subtracts the mean 2 of the whole snapshot and reports -2.0,
    where extracting first and filtering then subtracts the mean 0 of the
    slice and gives 0.0. *)
Lemma filter_then_extract_differs :
  let st := init in
  let data := [0; 4]%Z in
  let times := [0; 1]%float in
  length data = length times /\
  fst (extract_region (F:=passthrough) st data times 0%float 0%float)
  = in_region [0%float] [(-2)%float] /\
  Spec.extract_then_filter (F:=passthrough) st data times 0%float 0%float
  = ([0%float], [0%float]) /\
  [(-2)%float] <> [0%float].
Proof.
  cbv zeta. repeat split; try reflexivity. differ_at_head.
Qed.

(** ** Zero crossings and the average frequency *)

(** A float that is neither below, above nor equal to zero is nan. *)
Lemma sign_values (x : float) :
  np.sign x = (-1)%float \/ np.sign x = 1%float \/
  np.sign x = 0%float \/ np.sign x = PrimFloat.nan.
Proof.
  unfold np.sign.
  destruct (x <? 0)%float eqn:Hlt; [auto | ].
  destruct (0 <? x)%float eqn:Hgt; [auto | ].
  destruct (x =? 0)%float eqn:Heq; [auto | ].
  right. right. right.
  apply Prim2SF_inj.
  rewrite FloatAxioms.ltb_spec in Hlt, Hgt. rewrite FloatAxioms.eqb_spec in Heq.
  unfold SFltb in Hlt, Hgt. unfold SFeqb in Heq.
  rewrite (FloatOrder.compare_antisym (Prim2SF x) (Prim2SF 0%float)) in Hgt.
  destruct (Prim2SF x) as [s | s | | s m e] eqn:E; try reflexivity;
    exfalso; revert Hlt Hgt Heq; vm_compute; destruct s; discriminate.
Qed.

(** On values of [np.sign], a non-zero difference is a difference of
    signs. *)
Lemma sign_diff_nonzero (x y : float) :
  (np.sign y - np.sign x =? 0)%float = (np.sign x =? np.sign y)%float.
Proof.
  destruct (sign_values x) as [-> | [-> | [-> | ->]]];
    destruct (sign_values y) as [-> | [-> | [-> | ->]]]; reflexivity.
Qed.

(** [np.where(np.diff(l))[0]], index by index. *)
Lemma where_diff (l : list float) :
  forall i : nat,
    np.where_from i (np.diff l)
    = map (Nat.add i)
          (filter (fun j => negb (nth (S j) l 0 - nth j l 0 =? 0)%float)
                  (seq 0 (length l - 1))).
Proof.
  induction l as [ | x l IH]; intros i; [reflexivity | ].
  destruct l as [ | y l]; [reflexivity | ].
  change (np.diff (x :: y :: l)) with ((y - x)%float :: np.diff (y :: l)).
  change (length (x :: y :: l) - 1) with (S (length l)).
  rewrite <- cons_seq, <- seq_shift.
  cbn [np.where_from filter nth].
  rewrite IH.
  change (length (y :: l) - 1) with (length l - 0). rewrite Nat.sub_0_r.
  assert (Hshift :
            map (Nat.add i)
                (filter (fun j => negb (nth (S j) (x :: y :: l) 0
                                        - nth j (x :: y :: l) 0 =? 0)%float)
                        (map S (seq 0 (length l))))
            = map (Nat.add (S i))
                  (filter (fun j => negb (nth (S j) (y :: l) 0
                                          - nth j (y :: l) 0 =? 0)%float)
                          (seq 0 (length l)))).
  { generalize (seq 0 (length l)) as js.
    induction js as [ | j js IHjs]; [reflexivity | ].
    cbn [map filter]. cbn [nth] in IHjs |- *.
    destruct (negb _); cbn [map]; rewrite IHjs; [f_equal; lia | reflexivity]. }
  destruct (y - x =? 0)%float; cbn [negb map].
  - exact (eq_sym Hshift).
  - rewrite Nat.add_0_r. f_equal. exact (eq_sym Hshift).
Qed.

(** The crossings the code finds are the indices at which the sign
    changes. *)
Lemma zero_crossings_sign_changes (a : list float) :
  zero_crossings a = Spec.crossings a.
Proof.
  unfold zero_crossings, np.where_, Spec.crossings.
  rewrite where_diff, length_map.
  rewrite map_ext with (g := fun j => j) by reflexivity. rewrite map_id.
  apply filter_ext. intros j. unfold Spec.sign_changes.
  change 0%float with (np.sign 0%float) at 1 2.
  rewrite !map_nth. now rewrite sign_diff_nonzero.
Qed.

Lemma deltas_diff (ts : list float) : Spec.deltas ts = np.diff ts.
Proof.
  induction ts as [ | t0 ts IH]; [reflexivity | ].
  destruct ts as [ | t1 ts]; [reflexivity | ].
  change (Spec.deltas (t0 :: t1 :: ts))
    with ((t1 - t0)%float :: Spec.deltas (t1 :: ts)).
  change (np.diff (t0 :: t1 :: ts)) with ((t1 - t0)%float :: np.diff (t1 :: ts)).
  now rewrite IH.
Qed.

(** The frequency label that [update_region_measurements] writes is
    [freq_text] of the region. *)
Lemma update_region_measurements_reports {F : scipy_signal.Filters}
      (st st' : Analyzer) (start_time end_time : float)
      (region_times region_data : list float) :
  selected_region st = Some (start_time, end_time) ->
  get_region st start_time end_time
  = Some (in_region region_times region_data, st') ->
  fst (update_region_measurements st) = None /\
  option_map m_avg_freq
             (measurement_labels (snd (update_region_measurements st)))
  = Some (freq_text region_times region_data) /\
  option_map m_samples
             (measurement_labels (snd (update_region_measurements st)))
  = Some (length region_data).
Proof.
  intros Hsel Hreg. unfold update_region_measurements.
  rewrite Hsel, Hreg. repeat split.
Qed.

(** C6: the crossings are the indices at which the sign of the amplitude
    changes between consecutive samples; with fewer than two of them the
    frequency is unavailable; otherwise the period is twice the mean delta
    between consecutive crossing times and the frequency is its reciprocal
    when the period is positive and unavailable when it is at most zero. *)
Theorem freq_text_spec (region_times region_data : list float) :
  zero_crossings region_data = Spec.crossings region_data /\
  (length (Spec.crossings region_data) < 2 ->
   freq_text region_times region_data = None) /\
  (2 <= length (Spec.crossings region_data) ->
   ((0 <? Spec.period region_times region_data)%float = true ->
    freq_text region_times region_data
    = Some (1 / Spec.period region_times region_data)%float) /\
   ((Spec.period region_times region_data <=? 0)%float = true ->
    freq_text region_times region_data = None)).
Proof.
  pose proof (zero_crossings_sign_changes region_data) as Hz.
  split; [exact Hz | ].
  unfold freq_text, Spec.period. cbv zeta.
  rewrite Hz. unfold np.take.
  rewrite (deltas_diff (map (fun i => nth i region_times 0%float)
                            (Spec.crossings region_data))).
  split.
  - intros Hfew.
    assert (E : (1 <? length (Spec.crossings region_data)) = false)
      by (apply Nat.ltb_ge; lia).
    now rewrite E.
  - intros Hmany.
    assert (E : (1 <? length (Spec.crossings region_data)) = true)
      by (apply Nat.ltb_lt; lia).
    rewrite E. split.
    + intros Hpos. now rewrite Hpos.
    + intros Hneg. now rewrite (FloatOrder.leb_not_ltb _ _ Hneg).
Qed.

(** Five crossings one second apart give the period 2 s and 0.5 Hz; a
    series that never changes sign has no frequency. *)
Lemma freq_text_spec_witness :
  freq_text [0; 1; 2; 3; 4; 5]%float [0; 5; -5; 5; -5; 0]%float
  = Some (1 / 2)%float /\
  freq_text [0; 1; 2]%float [1; 2; 3]%float = None.
Proof.
  split.
  - destruct (freq_text_spec [0; 1; 2; 3; 4; 5]%float
                             [0; 5; -5; 5; -5; 0]%float) as (_ & _ & Hmany).
    destruct Hmany as [Hpos _]; [vm_compute; lia | ].
    rewrite Hpos by reflexivity. reflexivity.
  - destruct (freq_text_spec [0; 1; 2]%float [1; 2; 3]%float)
      as (_ & Hfew & _).
    apply Hfew. vm_compute. lia.
Defined.

(** C7, as the code has it: on the amplitudes [0, 5, -5, 5, -5, 0] at the
    times [0, 1, 2, 3, 4, 5] the sign changes at the five indices 0 to 4
    (the sign of 0 is 0, so the steps 0 -> 5 and -5 -> 0 count), and the
    average frequency is available and equals 0.5 Hz, which is positive. *)
Theorem zero_crossings_example :
  let amplitudes := [0; 5; -5; 5; -5; 0]%float in
  let times := [0; 1; 2; 3; 4; 5]%float in
  zero_crossings amplitudes = [0; 1; 2; 3; 4] /\
  length (zero_crossings amplitudes) = 5 /\
  freq_text times amplitudes = Some 0.5%float /\
  (0 <? 0.5)%float = true.
Proof. cbv zeta. repeat split. Qed.

(** C7 as stated fails: the crossing count on that series is not 4. *)
Lemma zero_crossings_example_not_four :
  map np.sign [0; 5; -5; 5; -5; 0]%float = [0; 1; -1; 1; -1; 0]%float /\
  length (zero_crossings [0; 5; -5; 5; -5; 0]%float) = 5 /\
  (length (zero_crossings [0; 5; -5; 5; -5; 0]%float) =? 4) = false.
Proof. repeat split. Qed.

(** ** Region selection by two clicks *)

Lemma py_min_le_py_max (a b : float) :
  PrimFloat.is_nan a = false -> PrimFloat.is_nan b = false ->
  (py_min a b <=? py_max a b)%float = true.
Proof.
  intros Ha Hb. unfold py_min, py_max.
  destruct (b <? a)%float eqn:Hba.
  - rewrite (FloatOrder.leb_not_ltb _ _ (FloatOrder.ltb_leb _ _ Hba)).
    now apply FloatOrder.ltb_leb.
  - destruct (a <? b)%float eqn:Hab.
    + now apply FloatOrder.ltb_leb.
    + apply FloatOrder.not_ltb_leb; try assumption.
      destruct (a <? a)%float eqn:Haa; [ | reflexivity].
      pose proof (FloatOrder.ltb_not_leb _ _ Haa) as H1.
      pose proof (FloatOrder.ltb_leb _ _ Haa) as H2. congruence.
Qed.

(** The committed bounds select the same samples whichever click came
    first. *)
Lemma region_mask_click_order (a b : float) (times : list float) :
  PrimFloat.is_nan a = false -> PrimFloat.is_nan b = false ->
  region_mask times (py_min a b) (py_max a b)
  = region_mask times (py_min b a) (py_max b a).
Proof.
  intros Ha Hb. unfold py_min, py_max.
  destruct (b <? a)%float eqn:Hba; destruct (a <? b)%float eqn:Hab;
    try reflexivity.
  - pose proof (FloatOrder.ltb_not_leb _ _ Hba) as H1.
    pose proof (FloatOrder.ltb_leb _ _ Hab) as H2. congruence.
  - unfold region_mask. apply map_ext. intros t.
    destruct (FloatOrder.unordered_same_bounds a b t Ha Hb Hab Hba)
      as [-> ->].
    reflexivity.
Qed.

Section SelectionFacts.

Context {F : scipy_signal.Filters}.

(** The chain only writes [dc_offset]. *)
Lemma process_signal_state (st : Analyzer) (data : list Z) :
  snd (process_signal st data) = set_dc_offset (snd (remove_dc st data)) st.
Proof. now rewrite process_signal_stages. Qed.

Lemma get_region_state (st st' : Analyzer) (s e : float) (r : RegionData) :
  get_region st s e = Some (r, st') -> exists dc, st' = set_dc_offset dc st.
Proof.
  unfold get_region, extract_region.
  destruct (get_data st) as [data times | | ]; try discriminate.
  - pose proof (process_signal_state st data) as Hs.
    destruct (process_signal st data) as [processed st1]. simpl in Hs.
    destruct (negb (np.any (region_mask times s e))).
    + intros [= _ <-]. eauto.
    + destruct (np.mask_index (region_mask times s e) times);
        destruct (np.mask_index (region_mask times s e) processed);
        intros [= _ <-]; eauto.
  - set (data := match frozen_data st with Some d => d | None => [] end).
    pose proof (process_signal_state st data) as Hs.
    destruct (process_signal st data) as [processed st1]. simpl in Hs.
    intros [= _ <-]. eauto.
Qed.

(** Measuring does not touch the selection. *)
Lemma update_region_measurements_selection (st : Analyzer) :
  selected_region (snd (update_region_measurements st)) = selected_region st.
Proof.
  unfold update_region_measurements.
  destruct (selected_region st) as [[s e] | ] eqn:Hsel; [ | exact Hsel].
  destruct (get_region st s e) as [[r st'] | ] eqn:Hr; [ | exact Hsel].
  destruct (get_region_state _ _ _ _ _ Hr) as [dc ->].
  destruct r; exact Hsel.
Qed.

(** The second of two clicks commits the ordered pair of click times. *)
Lemma two_clicks_region (st : Analyzer) (a b : float)
      (data : list Z) (times : list float) :
  region_selection_mode st = true ->
  _region_start st = None ->
  get_data st = snapshot data times ->
  times <> [] ->
  selected_region (two_clicks st a b) = Some (py_min a b, py_max a b).
Proof.
  intros Hmode Hstart Hdata Hne. unfold two_clicks.
  assert (Hlen : (length times =? 0) = false)
    by (destruct times; [congruence | reflexivity]).
  assert (H1 : snd (on_mouse_clicked st LeftButton a)
               = set_region_start (Some a) st).
  { unfold on_mouse_clicked. rewrite Hmode, Hdata, Hlen, Hstart. reflexivity. }
  rewrite H1. unfold on_mouse_clicked.
  change (region_selection_mode (set_region_start (Some a) st))
    with (region_selection_mode st).
  change (get_data (set_region_start (Some a) st)) with (get_data st).
  rewrite Hmode, Hdata, Hlen. cbn [negb _region_start set_region_start].
  now rewrite update_region_measurements_selection.
Qed.

(** C9: extraction keeps exactly the samples with start <= time <= end, in
    input order; two clicks at the (non-nan) times [a] and [b] commit the
    region (min, max) of the two, which satisfies start <= end, and the
    samples extracted for it are the same inclusive subset whichever click
    came first. *)
Theorem region_selection_inclusive (st : Analyzer) (a b : float)
        (data : list Z) (times : list float) :
  region_selection_mode st = true ->
  _region_start st = None ->
  get_data st = snapshot data times ->
  times <> [] ->
  PrimFloat.is_nan a = false ->
  PrimFloat.is_nan b = false ->
  let lo := py_min a b in
  let hi := py_max a b in
  (forall (A : Type) (s e : float) (ts : list float) (amplitudes : list A),
      length amplitudes = length ts ->
      np.mask_index (region_mask ts s e) ts
      = Some (filter (Spec.in_bounds s e) ts) /\
      np.mask_index (region_mask ts s e) amplitudes
      = Some (snd (Spec.extract ts amplitudes s e))) /\
  selected_region (two_clicks st a b) = Some (lo, hi) /\
  selected_region (two_clicks st b a) = Some (py_min b a, py_max b a) /\
  (lo <=? hi)%float = true /\
  (forall (A : Type) (ts : list float) (amplitudes : list A),
      length amplitudes = length ts ->
      np.mask_index (region_mask ts (py_min b a) (py_max b a)) ts
      = Some (filter (Spec.in_bounds lo hi) ts) /\
      np.mask_index (region_mask ts (py_min b a) (py_max b a)) amplitudes
      = Some (snd (Spec.extract ts amplitudes lo hi))).
Proof.
  intros Hmode Hstart Hdata Hne Ha Hb lo hi.
  assert (Hextract :
            forall (A : Type) (s e : float) (ts : list float)
                   (amplitudes : list A),
              length amplitudes = length ts ->
              np.mask_index (region_mask ts s e) ts
              = Some (filter (Spec.in_bounds s e) ts) /\
              np.mask_index (region_mask ts s e) amplitudes
              = Some (snd (Spec.extract ts amplitudes s e))).
  { intros A s e ts amplitudes Hlen.
    destruct (mask_index_region_mask s e ts amplitudes Hlen) as [Ht Hd].
    rewrite (extract_times s e ts amplitudes Hlen) in Ht. auto. }
  split; [exact Hextract | ].
  split; [exact (two_clicks_region st a b data times Hmode Hstart Hdata Hne) | ].
  split; [exact (two_clicks_region st b a data times Hmode Hstart Hdata Hne) | ].
  split; [exact (py_min_le_py_max a b Ha Hb) | ].
  intros A ts amplitudes Hlen.
  rewrite <- (region_mask_click_order a b ts Ha Hb).
  exact (Hextract A lo hi ts amplitudes Hlen).
Qed.

End SelectionFacts.

(** Clicking at 5 s and then at 0 s commits the region (0, 5). *)
Lemma region_selection_inclusive_witness :
  selected_region (two_clicks (F:=passthrough) selecting_analyzer 5%float 0%float)
  = Some (0%float, 5%float) /\
  selected_region (two_clicks (F:=passthrough) selecting_analyzer 0%float 5%float)
  = Some (0%float, 5%float).
Proof.
  destruct (region_selection_inclusive (F:=passthrough) selecting_analyzer
              5%float 0%float [2048; 2050]%Z [0; 0.0001]%float
              eq_refl eq_refl eq_refl ltac:(discriminate) eq_refl eq_refl)
    as (_ & H1 & H2 & _).
  split; [exact H1 | exact H2].
Defined.

(** ** Peak finding *)
Module PeakFacts.

Import scipy_signal.

Lemma plateau_end_bounds (x : list float) (i i_max : nat) :
  forall (fuel i_ahead : nat),
    i_ahead <= i_max ->
    i_ahead <= plateau_end fuel x i i_ahead i_max <= i_max.
Proof.
  induction fuel as [ | fuel IH]; intros i_ahead H; simpl; [lia | ].
  destruct (i_ahead <? i_max) eqn:Hlt; simpl; [ | lia].
  apply Nat.ltb_lt in Hlt.
  destruct (nth i_ahead x 0 =? nth i x 0)%float; [ | lia].
  specialize (IH (S i_ahead) Hlt). lia.
Qed.

(** The look-ahead never needs more rounds than there are samples left. *)
Lemma plateau_end_fuel (x : list float) (i i_max : nat) :
  forall (f1 f2 i_ahead : nat),
    i_max - i_ahead <= f1 -> i_max - i_ahead <= f2 ->
    plateau_end f1 x i i_ahead i_max = plateau_end f2 x i i_ahead i_max.
Proof.
  induction f1 as [ | f1 IH]; intros f2 i_ahead H1 H2.
  - destruct f2 as [ | f2]; [reflexivity | ]. simpl.
    replace (i_ahead <? i_max) with false
      by (symmetry; apply Nat.ltb_ge; lia).
    reflexivity.
  - destruct f2 as [ | f2]; simpl.
    + replace (i_ahead <? i_max) with false
        by (symmetry; apply Nat.ltb_ge; lia).
      reflexivity.
    + destruct (i_ahead <? i_max) eqn:Hlt; simpl; [ | reflexivity].
      destruct (nth i_ahead x 0 =? nth i x 0)%float; [ | reflexivity].
      apply IH; lia.
Qed.

(** Neither does the scan: [i_max - i] rounds are enough. *)
Lemma local_maxima_from_fuel (x : list float) (i_max : nat) :
  forall (f1 f2 i : nat),
    i_max - i <= f1 -> i_max - i <= f2 ->
    local_maxima_from f1 x i i_max = local_maxima_from f2 x i i_max.
Proof.
  induction f1 as [ | f1 IH]; intros f2 i H1 H2.
  - destruct f2 as [ | f2]; [reflexivity | ]. simpl.
    replace (i <? i_max) with false by (symmetry; apply Nat.ltb_ge; lia).
    reflexivity.
  - destruct f2 as [ | f2]; simpl.
    + replace (i <? i_max) with false by (symmetry; apply Nat.ltb_ge; lia).
      reflexivity.
    + destruct (i <? i_max) eqn:Hlt; [ | reflexivity].
      apply Nat.ltb_lt in Hlt.
      pose proof (plateau_end_bounds x i i_max (length x) (S i) Hlt) as Hb.
      destruct (nth (i - 1) x 0 <? nth i x 0)%float; [ | apply IH; lia].
      destruct (nth (plateau_end (length x) x i (S i) i_max) x 0
                <? nth i x 0)%float.
      * f_equal. apply IH; lia.
      * apply IH; lia.
Qed.

(** Every local maximum is an index below [i_max]. *)
Lemma local_maxima_from_bound (x : list float) (i_max : nat) :
  forall (fuel i p : nat),
    In p (local_maxima_from fuel x i i_max) -> p < i_max.
Proof.
  induction fuel as [ | fuel IH]; intros i p; [intros [] | ].
  cbn -[Nat.div Nat.ltb].
  destruct (i <? i_max) eqn:Hlt; [ | intros []].
  apply Nat.ltb_lt in Hlt.
  pose proof (plateau_end_bounds x i i_max (length x) (S i) Hlt) as Hb.
  destruct (nth (i - 1) x 0 <? nth i x 0)%float; [ | apply IH].
  destruct (nth (plateau_end (length x) x i (S i) i_max) x 0
            <? nth i x 0)%float; [ | apply IH].
  intros [<- | Hin]; [ | exact (IH _ _ Hin)].
  apply Nat.Div0.div_lt_upper_bound. lia.
Qed.

Lemma local_maxima_1d_bound (x : list float) (p : nat) :
  In p (local_maxima_1d x) -> p < length x.
Proof.
  unfold local_maxima_1d. intros H.
  apply local_maxima_from_bound in H. lia.
Qed.

Lemma compress_In (p : nat) (keep : list bool) :
  forall peaks : list nat, In p (compress keep peaks) -> In p peaks.
Proof.
  induction keep as [ | b keep IH]; intros [ | q peaks]; simpl; try tauto.
  destruct b; simpl; intros H; [destruct H as [H | H] | ]; auto.
Qed.

(** A reported peak is a sample of the series that reaches the height. *)
Lemma find_peaks_height (x : list float) (height : float) (distance : Z)
      (peaks : list nat) (p : nat) :
  find_peaks x height distance = Some peaks ->
  In p peaks ->
  p < length x /\ (height <=? nth p x 0)%float = true.
Proof.
  unfold find_peaks. destruct (distance <? 1)%Z; [discriminate | ].
  intros [= <-] Hin. apply compress_In in Hin.
  apply filter_In in Hin. destruct Hin as [Hmax Hh].
  split; [now apply local_maxima_1d_bound | exact Hh].
Qed.

(** A height above every sample leaves no peak, and no error for a
    distance of at least one sample. *)
Lemma find_peaks_none_above (x : list float) (height : float) (distance : Z) :
  (1 <= distance)%Z ->
  forallb (fun v => (v <? height)%float) x = true ->
  find_peaks x height distance = Some [].
Proof.
  intros Hd Hall.
  destruct (find_peaks x height distance) as [peaks | ] eqn:E.
  - destruct peaks as [ | p peaks]; [reflexivity | exfalso].
    destruct (find_peaks_height x height distance (p :: peaks) p E)
      as [Hp Hh]; [now left | ].
    rewrite forallb_forall in Hall.
    specialize (Hall (nth p x 0%float) (nth_In x 0%float Hp)).
    apply FloatOrder.ltb_not_leb in Hall. congruence.
  - unfold find_peaks in E.
    replace (distance <? 1)%Z with false in E
      by (symmetry; apply Z.ltb_ge; lia).
    discriminate.
Qed.

End PeakFacts.

(** ** Spike detection *)

Section DetectionFacts.

Context {F : scipy_signal.Filters}.

(** C8, as the code has it: when the threshold is above the absolute value
    of every sample of the region (and the minimal distance is at least one
    sample), detection ends with the "No Spikes" information box and not
    with a warning or an exception, but it returns before the stored
    sequence is reset: [detected_spikes], the markers and the count label
    keep the values of the earlier run. *)
Theorem detect_spikes_above_all_keeps_earlier (st st' : Analyzer)
        (start_time end_time : float) (region_times region_data : list float)
        (min_distance_samples : Z) :
  selected_region st = Some (start_time, end_time) ->
  get_region st start_time end_time
  = Some (in_region region_times region_data, st') ->
  py_int (min_distance_spin st * np.float_of_Z sample_rate)%float
  = inl min_distance_samples ->
  (1 <= min_distance_samples)%Z ->
  forallb (fun v => (PrimFloat.abs v <? threshold_spin st)%float) region_data
  = true ->
  fst (detect_spikes st) = information_no_spikes (threshold_spin st) /\
  detected_spikes (snd (detect_spikes st)) = detected_spikes st /\
  spike_markers (snd (detect_spikes st)) = spike_markers st /\
  spike_count_label (snd (detect_spikes st)) = spike_count_label st.
Proof.
  intros Hsel Hreg Hint Hd Hthr.
  destruct (get_region_state _ _ _ _ _ Hreg) as [dc ->].
  assert (Hpeaks :
            scipy_signal.find_peaks (map PrimFloat.abs region_data)
                                    (threshold_spin st) min_distance_samples
            = Some []).
  { apply PeakFacts.find_peaks_none_above; [exact Hd | ].
    rewrite forallb_forall in Hthr |- *. intros v Hv.
    apply in_map_iff in Hv. destruct Hv as (u & <- & Hu). now apply Hthr. }
  unfold detect_spikes. rewrite Hsel, Hreg.
  change (threshold_spin (set_dc_offset dc st)) with (threshold_spin st).
  change (min_distance_spin (set_dc_offset dc st)) with (min_distance_spin st).
  rewrite Hint, Hpeaks. repeat split.
Qed.

End DetectionFacts.

(** The session of [analyzer_with_spike]: the run at threshold 100 reports
    "no spikes" and the record of the run at threshold 20 is still stored. *)
Lemma detect_spikes_above_all_keeps_earlier_witness :
  fst (detect_spikes (F:=passthrough) analyzer_with_spike)
  = information_no_spikes 100%float /\
  length (detected_spikes (snd (detect_spikes (F:=passthrough)
                                  analyzer_with_spike))) = 1 /\
  spike_count_label (snd (detect_spikes (F:=passthrough) analyzer_with_spike))
  = Some 1.
Proof.
  destruct (detect_spikes_above_all_keeps_earlier (F:=passthrough)
              analyzer_with_spike
              (set_dc_offset 16%float analyzer_with_spike)
              0%float 1%float
              [0; 0.0001; 0.0002; 0.00030000000000000003; 0.0004]%float
              [-6; -6; 24; -6; -6]%float 500%Z
              eq_refl eq_refl eq_refl ltac:(lia) eq_refl)
    as (Hout & Hspikes & _ & Hlabel).
  rewrite Hout, Hspikes, Hlabel. repeat split.
Defined.

(** ** Alignment of the channels in every reachable state *)

Section Reachable.

Context {F : scipy_signal.Filters}.

(** Measuring, clicking and detecting leave the acquisition path alone. *)
Lemma update_region_measurements_acquisition (st : Analyzer) :
  acquisition (snd (update_region_measurements st)) = acquisition st.
Proof.
  unfold update_region_measurements.
  destruct (selected_region st) as [[s e] | ]; [ | reflexivity].
  destruct (get_region st s e) as [[r st'] | ] eqn:Hr; [ | reflexivity].
  destruct (get_region_state _ _ _ _ _ Hr) as [dc ->].
  destruct r; reflexivity.
Qed.

Lemma on_mouse_clicked_acquisition (st : Analyzer) (button : MouseButton)
      (click_time : float) :
  acquisition (snd (on_mouse_clicked st button click_time)) = acquisition st.
Proof.
  unfold on_mouse_clicked.
  destruct (negb (region_selection_mode st)); [reflexivity | ].
  destruct button; [ | reflexivity].
  destruct (get_data st) as [data times | | ]; try reflexivity.
  destruct (length times =? 0); [reflexivity | ].
  destruct (_region_start st); [ | reflexivity].
  now rewrite update_region_measurements_acquisition.
Qed.

Lemma detect_spikes_acquisition (st : Analyzer) :
  acquisition (snd (detect_spikes st)) = acquisition st.
Proof.
  unfold detect_spikes.
  destruct (selected_region st) as [[s e] | ]; [ | reflexivity].
  destruct (get_region st s e) as [[r st'] | ] eqn:Hr; [ | reflexivity].
  destruct (get_region_state _ _ _ _ _ Hr) as [dc ->].
  destruct r as [region_times region_data | | ]; try reflexivity.
  destruct (py_int _) as [d | ]; [ | reflexivity].
  destruct (scipy_signal.find_peaks _ _ _) as [peaks | ]; [ | reflexivity].
  destruct (length peaks =? 0); [reflexivity | ].
  destruct (fold_left _ _ _) as [spikes markers]. reflexivity.
Qed.

Lemma aligned_acquisition (st st' : Analyzer) :
  acquisition st' = acquisition st -> aligned st -> aligned st'.
Proof.
  unfold acquisition, aligned. intros [= -> -> _ -> ->]. tauto.
Qed.

Lemma aligned_on_data_received (st : Analyzer) (samples : list Z)
      (timestamp : float) :
  aligned st -> aligned (on_data_received st samples timestamp).
Proof.
  intros H. destruct (paused st) eqn:Hp.
  - unfold on_data_received. now rewrite Hp.
  - destruct H as (Md & Mt & Hlen & Hcap & Hfrozen).
    assert (Hcap0 : (0 <= max_samples)%Z) by (unfold max_samples; lia).
    destruct (on_data_received_running st samples timestamp Hp)
      as (Ed & Et & _ & _).
    unfold aligned. rewrite Ed, Et, !DequeFacts.extend_maxlen.
    rewrite !DequeFacts.extend_items by (rewrite ?Md, ?Mt; lia).
    rewrite !DequeFacts.lastn_length, !length_app, batch_times_length.
    rewrite Md, Mt.
    repeat split; try lia.
    unfold on_data_received. rewrite Hp. exact Hfrozen.
Qed.

Lemma aligned_handle (st : Analyzer) (ev : Event) :
  aligned st -> aligned (handle st ev).
Proof.
  intros H. destruct ev; cbn [handle].
  - now apply aligned_on_data_received.
  - destruct H as (Md & Mt & Hlen & Hcap & Hfrozen).
    unfold toggle_pause, aligned.
    destruct (paused st); simpl; auto.
  - destruct H as (Md & Mt & Hlen & Hcap & Hfrozen).
    unfold aligned, clear_data, clear_selected_region.
    cbn [data_buffer time_buffer frozen_data frozen_time set_data_buffer
         set_time_buffer set_frozen_data set_frozen_time
         set_total_samples_received set_selected_region set_region_start
         set_detected_spikes set_spike_markers set_spike_count_label
         set_measurement_labels deque.clear deque.items deque.maxlen length].
    unfold max_samples in *. repeat split; try assumption; lia.
  - exact H.
  - unfold toggle_region_mode.
    destruct (negb (region_selection_mode _)); exact H.
  - exact H.
  - exact H.
  - exact H.
  - exact H.
  - exact (aligned_acquisition _ _ (on_mouse_clicked_acquisition _ _ _) H).
  - exact (aligned_acquisition _ _ (detect_spikes_acquisition _) H).
Qed.

(** Whatever the events, the snapshot that analysis reads has as many
    amplitudes as times. *)
Lemma snapshot_aligned (evs : list Event) (data : list Z)
      (times : list float) :
  get_data (run init evs) = snapshot data times ->
  length data = length times.
Proof.
  assert (Hinit : aligned init)
    by (unfold aligned; repeat split; cbv; discriminate).
  assert (Hrun : aligned (run init evs)).
  { unfold run. revert Hinit. generalize init.
    induction evs as [ | ev evs IH]; intros st Hst; [exact Hst | ].
    apply IH. now apply aligned_handle. }
  destruct Hrun as (_ & _ & Hlen & _ & Hfrozen).
  unfold get_data.
  destruct (paused (run init evs));
    destruct (frozen_data (run init evs)) as [d | ];
    destruct (frozen_time (run init evs)) as [t | ];
    try contradiction;
    try (destruct (deque.len _ =? 0); [discriminate | ]);
    intros [= <- <-]; assumption.
Qed.

End Reachable.

(** ** Further properties of acquisition, pause and clear *)

(** X1: a batch without samples changes nothing, paused or not. *)
Theorem empty_batch_changes_nothing (st : Analyzer) (timestamp : float) :
  on_data_received st [] timestamp = st.
Proof.
  unfold on_data_received. destruct (paused st) eqn:Hp; [reflexivity | ].
  destruct st as [db tb p fd ft dc hp lp nt rm sr ds sm rs total th md hs ls
                  nf nq sc ml].
  destruct db, tb. cbn. now rewrite Z.add_0_r.
Qed.

(** X2: the counter of received samples counts every sample ever
    delivered, also those that the buffer has evicted: it exceeds the number
    of retained samples by exactly the overflow beyond [max_samples]. *)
Theorem counter_counts_evicted_samples (batches : list (list Z * float)) :
  let st := receive_all init batches in
  total_samples_received st = Z.of_nat (length (all_samples batches)) /\
  (total_samples_received st - Z.of_nat (deque.len (data_buffer st))
   = Z.max 0 (total_samples_received st - max_samples))%Z.
Proof.
  assert (Hcap : (0 <= max_samples)%Z) by (unfold max_samples; lia).
  destruct (receive_all_running batches init eq_refl Hcap Hcap Hcap Hcap)
    as (Ed & _ & En).
  cbv zeta. split.
  - rewrite En. reflexivity.
  - rewrite En. unfold deque.len. rewrite Ed.
    change (deque.maxlen (data_buffer init)) with max_samples.
    change (deque.items (data_buffer init) ++ all_samples batches)
      with (all_samples batches).
    change (total_samples_received init) with 0%Z.
    rewrite DequeFacts.lastn_length. lia.
Qed.

Lemma receive_all_paused (batches : list (list Z * float)) :
  forall st : Analyzer, paused st = true -> receive_all st batches = st.
Proof.
  induction batches as [ | [samples timestamp] batches IH]; intros st Hp;
    [reflexivity | ].
  change (receive_all st ((samples, timestamp) :: batches))
    with (receive_all (on_data_received st samples timestamp) batches).
  unfold on_data_received. rewrite Hp. cbn [negb]. now apply IH.
Qed.

(** X3: whatever is delivered during a pause is lost: pausing a running
    analyzer, delivering any batches and resuming gives back exactly the
    analyzer from before the pause. *)
Theorem pause_drops_batches_and_resume_restores
        (st : Analyzer) (batches : list (list Z * float)) :
  paused st = false ->
  frozen_data st = None ->
  frozen_time st = None ->
  toggle_pause (receive_all (toggle_pause st) batches) = st.
Proof.
  intros Hp Hd Ht.
  rewrite receive_all_paused
    by (unfold toggle_pause; rewrite Hp; reflexivity).
  destruct st as [db tb p fd ft dc hp lp nt rm sr ds sm rs total th md hs ls
                  nf nq sc ml].
  cbn in Hp, Hd, Ht. subst. reflexivity.
Qed.

Lemma pause_drops_batches_and_resume_restores_witness :
  toggle_pause (receive_all (toggle_pause init) [([1; 2; 3]%Z, 0%float)])
  = init.
Proof.
  exact (pause_drops_batches_and_resume_restores
           init [([1; 2; 3]%Z, 0%float)] eq_refl eq_refl eq_refl).
Defined.

Section ClearedFacts.

Context {F : scipy_signal.Filters}.

Lemma get_data_cleared (st : Analyzer) :
  get_data (clear_data st) = snapshot_no_data.
Proof.
  destruct st as [db tb p fd ft dc hp lp nt rm sr ds sm rs total th md hs ls
                  nf nq sc ml].
  destruct p; reflexivity.
Qed.

Lemma selected_region_cleared (st : Analyzer) :
  selected_region (clear_data st) = None.
Proof.
  destruct st as [db tb p fd ft dc hp lp nt rm sr ds sm rs total th md hs ls
                  nf nq sc ml].
  reflexivity.
Qed.

(** X4: after [clear_data] there is nothing to analyse, paused or not:
    clicks are ignored, detection answers with the "No Region" warning,
    measuring and the display refresh return at once, and none of them
    changes the analyzer. *)
Theorem cleared_analyzer_has_nothing_to_analyse
        (st : Analyzer) (button : MouseButton) (click_time : float)
        (window_size : float) (auto_scroll auto_zoom : bool) :
  let st0 := clear_data st in
  get_data st0 = snapshot_no_data /\
  on_mouse_clicked st0 button click_time = (None, st0) /\
  detect_spikes st0 = (warning_no_region, st0) /\
  update_region_measurements st0 = (None, st0) /\
  update_plot st0 window_size auto_scroll auto_zoom = (plot_skipped, st0).
Proof.
  cbv zeta. pose proof (get_data_cleared st) as Hg.
  pose proof (selected_region_cleared st) as Hs.
  revert Hg Hs. generalize (clear_data st). intros st0 Hg Hs.
  split; [exact Hg | ]. split; [ | split; [ | split]].
  - unfold on_mouse_clicked. rewrite Hg.
    destruct (negb (region_selection_mode st0)); [reflexivity | ].
    now destruct button.
  - unfold detect_spikes. now rewrite Hs.
  - unfold update_region_measurements. now rewrite Hs.
  - unfold update_plot. now rewrite Hg.
Qed.

End ClearedFacts.

(** ** Further properties of the filter chain *)

Section ChainFacts.

Context {F : scipy_signal.Filters}.

(** X5: the chain returns as many samples as it is given and writes no
    attribute but [dc_offset], which becomes the mean of the input when a
    stage is enabled and the nominal 2048 otherwise. *)
Theorem process_signal_keeps_length_and_state (st : Analyzer) (data : list Z) :
  length (fst (process_signal st data)) = length data /\
  snd (process_signal st data)
  = set_dc_offset
      (if highpass_enabled st || lowpass_enabled st || notch_enabled st
       then np.mean (np.astype_float data) else 2048%float) st.
Proof.
  split; [apply process_signal_length | ].
  rewrite process_signal_state. unfold remove_dc.
  now destruct (highpass_enabled st || lowpass_enabled st || notch_enabled st).
Qed.

(** X6: on a window of at most 100 samples no filter runs, whatever the
    configuration: the output is the input minus its mean when a stage is
    enabled, and the input itself otherwise. *)
Theorem short_window_only_removes_mean (st : Analyzer) (data : list Z) :
  length data <= 100 ->
  fst (process_signal st data)
  = if highpass_enabled st || lowpass_enabled st || notch_enabled st
    then map (fun x => (x - np.mean (np.astype_float data))%float)
             (np.astype_float data)
    else np.astype_float data.
Proof.
  intros Hlen. rewrite process_signal_stages. cbv zeta. cbn [fst].
  assert (Hshort : forall x : list float,
             length x = length data -> (100 <? length x) = false)
    by (intros x Hx; apply Nat.ltb_ge; lia).
  pose proof (remove_dc_length st data) as Hdc.
  unfold notch_stage, lowpass_stage, highpass_stage.
  rewrite (Hshort _ Hdc), !andb_false_r.
  rewrite (Hshort _ Hdc), !andb_false_r.
  rewrite (Hshort _ Hdc), !andb_false_r.
  unfold remove_dc.
  now destruct (highpass_enabled st || lowpass_enabled st || notch_enabled st).
Qed.

(** X7: on more than 100 samples every enabled stage runs, each on the
    output of the one before: high-pass, then low-pass, then notch, after
    the DC removal. *)
Theorem long_window_chains_enabled_stages (st : Analyzer) (data : list Z) :
  100 < length data ->
  fst (process_signal st data)
  = (let x0 := fst (remove_dc st data) in
     let x1 :=
       if highpass_enabled st then
         scipy_signal.sosfiltfilt
           (scipy_signal.butter 4 (highpass_spin st) scipy_signal.hp sample_rate)
           x0
       else x0 in
     let x2 :=
       if lowpass_enabled st then
         scipy_signal.sosfiltfilt
           (scipy_signal.butter 4 (lowpass_spin st) scipy_signal.lp sample_rate)
           x1
       else x1 in
     if notch_enabled st then
       scipy_signal.filtfilt
         (scipy_signal.iirnotch (notch_freq_spin st) (notch_q_spin st)
                                sample_rate) x2
     else x2).
Proof.
  intros Hlen. rewrite process_signal_stages. cbv zeta. cbn [fst].
  set (st' := set_dc_offset (snd (remove_dc st data)) st).
  set (x0 := fst (remove_dc st data)).
  assert (H0 : length x0 = length data) by apply remove_dc_length.
  assert (H1 : length (highpass_stage st' x0) = length data)
    by (rewrite highpass_stage_length; exact H0).
  assert (H2 : length (lowpass_stage st' (highpass_stage st' x0)) = length data)
    by (rewrite lowpass_stage_length; exact H1).
  assert (Hlong : forall x : list float,
             length x = length data -> (100 <? length x) = true)
    by (intros x Hx; apply Nat.ltb_lt; lia).
  unfold notch_stage at 1. rewrite (Hlong _ H2), andb_true_r.
  unfold lowpass_stage at 1 2. rewrite (Hlong _ H1), andb_true_r.
  unfold highpass_stage. rewrite (Hlong _ H0), andb_true_r.
  reflexivity.
Qed.

End ChainFacts.

Lemma short_window_only_removes_mean_witness :
  fst (process_signal (F:=flipping) init [0; 4]%Z) = [-2; 2]%float.
Proof.
  rewrite (short_window_only_removes_mean (F:=flipping) init [0; 4]%Z)
    by (cbn; lia).
  reflexivity.
Defined.

Lemma long_window_chains_enabled_stages_witness :
  fst (process_signal (F:=flipping) init (repeat 7%Z 101))
  = map PrimFloat.opp (map PrimFloat.opp (repeat 0%float 101)).
Proof.
  rewrite (long_window_chains_enabled_stages (F:=flipping) init
             (repeat 7%Z 101))
    by (rewrite repeat_length; lia).
  vm_compute. reflexivity.
Defined.

(** ** The display refresh *)



Lemma set_dc_offset_same (st : Analyzer) : set_dc_offset (dc_offset st) st = st.
Proof. now destruct st. Qed.

Section DisplayFacts.

Context {F : scipy_signal.Filters}.

Lemma process_signal_float_stages (st : Analyzer) (data : list float) :
  process_signal_float st data
  = (let any := highpass_enabled st || lowpass_enabled st || notch_enabled st in
     let dc := if any then np.mean data else 2048%float in
     let x := if any then map (fun x => (x - dc)%float) data else data in
     let st' := set_dc_offset dc st in
     (notch_stage st' (lowpass_stage st' (highpass_stage st' x)), st')).
Proof.
  unfold process_signal_float.
  now destruct (highpass_enabled st || lowpass_enabled st || notch_enabled st).
Qed.


(** On integer samples the chain is the chain on their float copies. *)
Lemma process_signal_as_float (st : Analyzer) (data : list Z) :
  process_signal st data = process_signal_float st (np.astype_float data).
Proof.
  rewrite process_signal_stages, process_signal_float_stages. unfold remove_dc.
  now destruct (highpass_enabled st || lowpass_enabled st || notch_enabled st).
Qed.



Lemma update_plot_state
      (st : Analyzer) (window_size : float) (auto_scroll auto_zoom : bool) :
  exists dc : float,
    snd (update_plot st window_size auto_scroll auto_zoom)
    = set_dc_offset dc st.
Proof.
  unfold update_plot.
  destruct (get_data st) as [raw times | | ];
    try (exists (dc_offset st); symmetry; apply set_dc_offset_same).
  destruct (visible_window (np.astype_float raw) times window_size)
    as [[data | ] [times' | ]];
    try (exists (dc_offset st); symmetry; apply set_dc_offset_same).
  destruct (length data =? 0);
    [exists (dc_offset st); symmetry; apply set_dc_offset_same | ].
  rewrite process_signal_float_stages. cbv zeta.
  eexists. destruct (10000 <? _)%Z; reflexivity.
Qed.

(** X8: the display refresh writes no attribute but [dc_offset]: buffers,
    pause state, region, pending click, spikes and labels are as before. *)
Theorem update_plot_only_writes_dc_offset
        (st : Analyzer) (window_size : float) (auto_scroll auto_zoom : bool) :
  exists dc : float,
    snd (update_plot st window_size auto_scroll auto_zoom)
    = set_dc_offset dc st.
Proof. apply update_plot_state. Qed.

Lemma update_plot_zero_line_drawn
        (st st' : Analyzer) (window_size : float)
        (auto_scroll auto_zoom : bool) (p : PlotUpdate) :
  update_plot st window_size auto_scroll auto_zoom = (plot_drawn p, st') ->
  zero_line p
  = if highpass_enabled st || lowpass_enabled st || notch_enabled st
    then 0%float else 2048%float.
Proof.
  unfold update_plot.
  destruct (get_data st) as [raw times | | ]; try discriminate.
  destruct (visible_window (np.astype_float raw) times window_size)
    as [[data | ] [times' | ]]; try discriminate.
  destruct (length data =? 0); [discriminate | ].
  rewrite process_signal_float_stages. cbv beta iota zeta.
  match goal with
  | |- context [(10000 <? ?n)%Z] => destruct (10000 <? n)%Z
  end; intros [= <- _]; cbn [zero_line];
    change (highpass_enabled (set_dc_offset ?d st)) with (highpass_enabled st);
    change (lowpass_enabled (set_dc_offset ?d st)) with (lowpass_enabled st);
    change (notch_enabled (set_dc_offset ?d st)) with (notch_enabled st);
    destruct (highpass_enabled st || lowpass_enabled st || notch_enabled st);
    reflexivity.
Qed.


(** X10: the zero reference line is drawn at 0 when a filter stage is
    enabled and at the nominal offset 2048 otherwise, whatever [dc_offset]
    held before. *)
Theorem update_plot_zero_line
        (st : Analyzer) (window_size : float) (auto_scroll auto_zoom : bool) :
  match fst (update_plot st window_size auto_scroll auto_zoom) with
  | plot_drawn p =>
      zero_line p
      = if highpass_enabled st || lowpass_enabled st || notch_enabled st
        then 0%float else 2048%float
  | _ => True
  end.
Proof.
  destruct (update_plot st window_size auto_scroll auto_zoom)
    as [[ | p | e] st'] eqn:E; cbn [fst]; try exact I.
  exact (update_plot_zero_line_drawn st st' window_size auto_scroll auto_zoom
                                     p E).
Qed.

End DisplayFacts.


(** ** The serial reader's line framing *)
Module SerialFacts.

Import serial.

Lemma split_newline_some (s line rest : str) :
  split_newline s = Some (line, rest) ->
  s = line ++ newline :: rest /\ ~ In newline line.
Proof.
  revert line rest. induction s as [ | c s IH]; intros line rest; cbn;
    [discriminate | ].
  destruct (c =? newline)%N eqn:Hc.
  - apply N.eqb_eq in Hc. intros [= <- <-]. subst c. split; [reflexivity | ].
    intros [].
  - destruct (split_newline s) as [[l r] | ]; [ | discriminate].
    intros [= <- <-]. destruct (IH l r eq_refl) as [-> Hl].
    apply N.eqb_neq in Hc. split; [reflexivity | ].
    intros [H | H]; [congruence | contradiction].
Qed.

Lemma split_newline_none (s : str) :
  split_newline s = None <-> ~ In newline s.
Proof.
  induction s as [ | c s IH]; cbn; [tauto | ].
  destruct (c =? newline)%N eqn:Hc.
  - apply N.eqb_eq in Hc. split; [discriminate | intros H; exfalso; auto].
  - apply N.eqb_neq in Hc.
    destruct (split_newline s) as [[l r] | ].
    + split; [discriminate | ]. intros H. exfalso.
      assert (Hn : ~ In newline s) by tauto.
      apply IH in Hn. discriminate.
    + split; [ | reflexivity]. intros _ [H | H]; [congruence | ].
      now apply IH.
Qed.

(** More text after the buffer does not move its first newline. *)
Lemma split_newline_app (s t line rest : str) :
  split_newline s = Some (line, rest) ->
  split_newline (s ++ t) = Some (line, rest ++ t).
Proof.
  revert line rest. induction s as [ | c s IH]; intros line rest; cbn;
    [discriminate | ].
  destruct (c =? newline)%N; [now intros [= <- <-] | ].
  destruct (split_newline s) as [[l r] | ]; [ | discriminate].
  intros [= <- <-]. now rewrite (IH l r eq_refl).
Qed.

Lemma last_app_cons {A} (l l' : list A) (c d : A) :
  last (l ++ c :: l') d = last (c :: l') d.
Proof.
  induction l as [ | x l IH]; [reflexivity | ].
  cbn [app]. rewrite <- IH. cbn [last].
  destruct (l ++ c :: l') eqn:E; [ | reflexivity].
  now destruct l.
Qed.

(** The loop has fuel enough: more rounds change nothing. *)
Lemma read_lines_fuel (f1 : nat) :
  forall (f2 : nat) (s : str),
    length s <= f1 -> length s <= f2 -> read_lines f1 s = read_lines f2 s.
Proof.
  induction f1 as [ | f1 IH]; intros f2 s H1 H2.
  - destruct s; [ | cbn in H1; lia]. now destruct f2.
  - destruct f2 as [ | f2].
    + destruct s; [reflexivity | cbn in H2; lia].
    + cbn. destruct (split_newline s) as [[line rest] | ] eqn:E;
        [ | reflexivity].
      apply split_newline_some in E. destruct E as [-> _].
      rewrite length_app in H1, H2. cbn in H1, H2.
      rewrite (IH f2 rest) by lia. reflexivity.
Qed.

(** The loop ends with a buffer without newline. *)
Lemma read_lines_rest (fuel : nat) :
  forall (s rest : str) (actions : list Action),
    length s <= fuel ->
    read_lines fuel s = (actions, rest) ->
    ~ In newline rest /\
    exists consumed : str,
      s = consumed ++ rest /\
      (consumed = [] \/ last consumed 0%N = newline).
Proof.
  induction fuel as [ | fuel IH]; intros s rest actions Hlen.
  - destruct s; [ | cbn in Hlen; lia]. intros [= <- <-].
    split; [intros [] | ]. exists []. auto.
  - cbn. destruct (split_newline s) as [[line s'] | ] eqn:E.
    + destruct (split_newline_some _ _ _ E) as [-> _].
      rewrite length_app in Hlen. cbn in Hlen.
      destruct (read_lines fuel s') as [acts r] eqn:Er.
      intros [= <- <-].
      destruct (IH s' r acts ltac:(lia) Er) as (Hr & consumed & -> & Hc).
      split; [exact Hr | ].
      exists (line ++ newline :: consumed).
      split; [now rewrite <- app_assoc | right].
      destruct Hc as [-> | Hc]; [now rewrite last_last | ].
      destruct consumed as [ | c0 consumed]; [now rewrite last_last | ].
      change (line ++ newline :: c0 :: consumed)
        with (line ++ [newline] ++ c0 :: consumed).
      rewrite app_assoc, last_app_cons. exact Hc.
    + intros [= <- <-]. split; [now apply split_newline_none | ].
      exists []. auto.
Qed.

(** Reading a buffer with more text behind it: the lines of the buffer
    first, then the loop goes on with what was left plus the new text. *)
Lemma read_lines_app (fuel : nat) :
  forall (s t rest : str) (actions : list Action),
    length s <= fuel ->
    read_lines fuel s = (actions, rest) ->
    read_lines (length (s ++ t)) (s ++ t)
    = (let (actions', rest') := read_lines (length (rest ++ t)) (rest ++ t) in
       (actions ++ actions', rest')).
Proof.
  induction fuel as [ | fuel IH]; intros s t rest actions Hlen.
  - destruct s; [ | cbn in Hlen; lia]. intros [= <- <-]. cbn [app].
    now destruct (read_lines (length t) t).
  - cbn [read_lines]. destruct (split_newline s) as [[line s'] | ] eqn:E.
    + destruct (split_newline_some _ _ _ E) as [Hs _].
      destruct (read_lines fuel s') as [acts r] eqn:Er.
      intros [= <- <-].
      assert (Hlen' : length s' <= fuel)
        by (subst s; rewrite length_app in Hlen; cbn in Hlen; lia).
      specialize (IH s' t r acts Hlen' Er).
      destruct (length (s ++ t)) as [ | n] eqn:En.
      { subst s. rewrite length_app in En. rewrite length_app in En.
        cbn [length] in En. lia. }
      cbn [read_lines]. rewrite (split_newline_app _ t _ _ E).
      rewrite (read_lines_fuel n (length (s' ++ t)) (s' ++ t)).
      * rewrite IH. destruct (read_lines (length (r ++ t)) (r ++ t)).
        now rewrite app_assoc.
      * subst s. rewrite length_app. rewrite length_app in En.
        rewrite length_app in En. cbn [length] in En. lia.
      * lia.
    + intros [= <- <-]. now destruct (read_lines (length (s ++ t)) (s ++ t)).
Qed.

Lemma receive_chunks_concat (chunks : list str) :
  forall buffer : str,
    ~ In newline buffer ->
    receive_chunks buffer chunks = receive_chunk buffer (concat chunks).
Proof.
  induction chunks as [ | chunk chunks IH]; intros buffer Hb.
  - cbn [receive_chunks concat]. unfold receive_chunk. rewrite app_nil_r.
    apply split_newline_none in Hb.
    destruct (length buffer); cbn; [reflexivity | now rewrite Hb].
  - cbn [receive_chunks concat].
    destruct (receive_chunk buffer chunk) as [acts rest] eqn:E.
    unfold receive_chunk in E. cbv zeta in E.
    destruct (read_lines_rest _ _ _ _ (Nat.le_refl _) E) as [Hrest _].
    rewrite (IH rest Hrest). unfold receive_chunk. cbv zeta.
    rewrite app_assoc.
    now rewrite (read_lines_app _ _ (concat chunks) _ _ (Nat.le_refl _) E).
Qed.

(** X11: how the text is cut into chunks does not matter: reading the
    chunks one after the other gives the same actions, in the same order,
    and keeps the same unfinished line as reading their concatenation in
    one go, so a line split between two reads is put together again. *)
Theorem chunking_does_not_matter (chunks : list str) :
  receive_chunks [] chunks = receive_chunk [] (concat chunks).
Proof. apply receive_chunks_concat. intros []. Qed.

(** X12: the reader never drops the tail of the text: what it keeps in the
    buffer is the text after the last newline received so far, and that
    text has no newline. *)
Theorem unfinished_line_is_kept (chunks : list str) :
  let rest := snd (receive_chunks [] chunks) in
  ~ In newline rest /\
  exists consumed : str,
    concat chunks = consumed ++ rest /\
    (consumed = [] \/ last consumed 0%N = newline).
Proof.
  cbv zeta. rewrite (receive_chunks_concat chunks []) by (intros []).
  unfold receive_chunk. cbn [app].
  destruct (read_lines (length (concat chunks)) (concat chunks))
    as [acts rest] eqn:E.
  exact (read_lines_rest _ _ _ _ (Nat.le_refl _) E).
Qed.

Example receive_chunks_example :
  receive_chunks [] [[35; 32; 104; 105; 13; 10; 49; 44]%N;
                     [50; 10; 32; 10; 51]%N]
  = ([emit_status_message [104; 105]%N; parse_data_line [49; 44; 50]%N],
     [51%N]).
Proof. reflexivity. Qed.

End SerialFacts.

Module StripFacts.

Import serial.

Lemma lstrip_split (s : str) :
  exists l : str,
    s = l ++ lstrip s /\ forallb isspace l = true /\
    match lstrip s with
    | [] => True
    | c :: _ => isspace c = false
    end.
Proof.
  induction s as [ | c s IH].
  - exists []. cbn. auto.
  - cbn [lstrip]. destruct (isspace c) eqn:Hc.
    + destruct IH as (l & Hs & Hl & Hhead).
      exists (c :: l). cbn. rewrite Hc, Hl, <- Hs. auto.
    + exists []. cbn. auto.
Qed.

Lemma lstrip_fixed (s : str) :
  match s with [] => True | c :: _ => isspace c = false end -> lstrip s = s.
Proof. destruct s as [ | c s]; [reflexivity | ]. cbn. now intros ->. Qed.

Lemma lstrip_idem (s : str) : lstrip (lstrip s) = lstrip s.
Proof.
  apply lstrip_fixed. destruct (lstrip_split s) as (_ & _ & _ & H). exact H.
Qed.

Lemma lstrip_app_nonspace (u : str) (c : N) :
  isspace c = false -> lstrip (u ++ [c]) = lstrip u ++ [c].
Proof.
  intros Hc. induction u as [ | x u IH]; cbn; [now rewrite Hc | ].
  now destruct (isspace x).
Qed.

Lemma rstrip_cons_nonspace (c : N) (t : str) :
  isspace c = false -> rstrip (c :: t) = c :: rstrip t.
Proof.
  intros Hc. unfold rstrip. cbn [rev].
  rewrite (lstrip_app_nonspace _ _ Hc), rev_app_distr. reflexivity.
Qed.

Lemma rstrip_idem (s : str) : rstrip (rstrip s) = rstrip s.
Proof. unfold rstrip. now rewrite rev_involutive, lstrip_idem. Qed.

Lemma rstrip_split (s : str) :
  exists r : str, s = rstrip s ++ r /\ forallb isspace r = true.
Proof.
  unfold rstrip. destruct (lstrip_split (rev s)) as (l & Hs & Hl & _).
  exists (rev l). split.
  - rewrite <- rev_app_distr, <- Hs. now rewrite rev_involutive.
  - rewrite forallb_forall in Hl |- *. intros x Hx. apply Hl.
    now apply in_rev.
Qed.

(** [strip] cuts whitespace off both ends and nothing else, and what is
    left begins and ends with a character that is not whitespace. *)
Lemma strip_spec (s : str) :
  (exists l r : str,
      s = l ++ strip s ++ r /\
      forallb isspace l = true /\ forallb isspace r = true) /\
  lstrip (strip s) = strip s /\
  rstrip (strip s) = strip s.
Proof.
  unfold strip. split; [ | split].
  - destruct (lstrip_split s) as (l & Hs & Hl & _).
    destruct (rstrip_split (lstrip s)) as (r & Hr & Hrs).
    exists l, r. rewrite <- Hr. auto.
  - destruct (lstrip_split s) as (_ & _ & _ & Hhead).
    destruct (lstrip s) as [ | c t]; [reflexivity | ].
    rewrite (rstrip_cons_nonspace c t Hhead). cbn. now rewrite Hhead.
  - apply rstrip_idem.
Qed.

(** X13: what the reader does with a line.  A line of whitespace only does
    nothing.  Otherwise the line is stripped of surrounding whitespace; when
    it then begins with ['#'] the rest, stripped again, is emitted as status
    message, and else the stripped line, which is not empty and does not
    begin with ['#'], goes to the data parser.  Nothing but whitespace at
    the ends is ever removed. *)
Theorem dispatch_cases (line : str) :
  (exists l r : str,
      line = l ++ strip line ++ r /\
      forallb isspace l = true /\ forallb isspace r = true) /\
  match dispatch line with
  | [] => forallb isspace line = true
  | [emit_status_message message] =>
      exists rest : str,
        strip line = hash :: rest /\ message = strip rest /\
        lstrip message = message /\ rstrip message = message
  | [parse_data_line data] =>
      data = strip line /\ data <> [] /\ hd 0%N data <> hash /\
      lstrip data = data /\ rstrip data = data
  | _ => False
  end.
Proof.
  destruct (strip_spec line) as (Hsplit & Hl & Hr).
  split; [exact Hsplit | ]. unfold dispatch.
  destruct (strip line) as [ | c rest] eqn:E.
  - destruct Hsplit as (l & r & -> & Hls & Hrs). cbn [app].
    rewrite forallb_app. now rewrite Hls, Hrs.
  - destruct (c =? hash)%N eqn:Hc.
    + apply N.eqb_eq in Hc. subst c. exists rest.
      destruct (strip_spec rest) as (_ & Hl' & Hr'). auto.
    + apply N.eqb_neq in Hc. repeat split; auto. discriminate.
Qed.

End StripFacts.

(** ** Buttons *)

Section ButtonFacts.

Context {F : scipy_signal.Filters}.

Lemma detect_spikes_selection (st : Analyzer) :
  selected_region (snd (detect_spikes st)) = selected_region st.
Proof.
  unfold detect_spikes.
  destruct (selected_region st) as [[s e] | ] eqn:Hsel; [ | exact Hsel].
  destruct (get_region st s e) as [[r st'] | ] eqn:Hr; [ | exact Hsel].
  destruct (get_region_state _ _ _ _ _ Hr) as [dc ->].
  destruct r as [region_times region_data | | ]; try exact Hsel.
  destruct (py_int _) as [d | ]; [ | exact Hsel].
  destruct (scipy_signal.find_peaks _ _ _) as [peaks | ]; [ | exact Hsel].
  destruct (length peaks =? 0); [exact Hsel | ].
  destruct (fold_left _ _ _) as [spikes markers]. exact Hsel.
Qed.

Lemma update_plot_selection (st : Analyzer) (window_size : float)
      (auto_scroll auto_zoom : bool) :
  selected_region (snd (update_plot st window_size auto_scroll auto_zoom))
  = selected_region st.
Proof.
  destruct (update_plot_state st window_size auto_scroll auto_zoom)
    as [dc ->].
  reflexivity.
Qed.

(** With a region selected, detection never answers "No Region". *)
Lemma detect_spikes_with_region (st : Analyzer) (region : float * float) :
  selected_region st = Some region ->
  fst (detect_spikes st) <> warning_no_region.
Proof.
  intros Hsel. unfold detect_spikes. rewrite Hsel. destruct region as [s e].
  destruct (get_region st s e) as [[r st'] | ]; [ | discriminate].
  destruct r as [region_times region_data | | ]; try discriminate.
  destruct (py_int _) as [d | ]; [ | discriminate].
  destruct (scipy_signal.find_peaks _ _ _) as [peaks | ]; [ | discriminate].
  destruct (length peaks =? 0); [discriminate | ].
  destruct (fold_left _ _ _) as [spikes markers]. discriminate.
Qed.

Lemma buttons_follow_handle (w : Analyzer * Buttons) (ev : WindowEvent) :
  buttons_follow w -> buttons_follow (handle_window w ev).
Proof.
  destruct w as [st b]. unfold buttons_follow. cbn [fst snd].
  intros (Hd & Hc & Hp).
  destruct ev as [ev | window_size auto_scroll auto_zoom | port connected
                  | connected]; cbn [handle_window].
  - destruct ev as [samples timestamp | | | | state | state | state | state
                    | value | button click_time | ]; cbn [fst snd handle].
    + unfold on_data_received. destruct (negb (paused st)); auto.
    + unfold toggle_pause.
      destruct (paused (set_paused (negb (paused st)) st)); auto.
    + rewrite selected_region_cleared. auto.
    + auto.
    + unfold toggle_region_mode.
      destruct (negb (region_selection_mode _)); auto.
    + auto.
    + auto.
    + auto.
    + auto.
    + unfold on_mouse_clicked, on_mouse_clicked_buttons.
      destruct (negb (region_selection_mode st)); [auto | ].
      destruct button; [ | auto].
      destruct (get_data st) as [data times | | ]; [ | auto | auto].
      destruct (length times =? 0); [auto | ].
      destruct (_region_start st); [ | auto].
      rewrite update_region_measurements_selection. auto.
    + rewrite detect_spikes_selection. auto.
  - cbn [fst snd]. rewrite update_plot_selection. auto.
  - cbn [fst snd]. unfold toggle_connection.
    destruct (connect_btn b) eqn:E.
    + destruct (port && connected); cbn; rewrite ?E; auto.
    + cbn. auto.
  - cbn [fst snd]. unfold on_connection_changed.
    destruct (connect_btn b) eqn:E.
    + rewrite E. auto.
    + destruct (negb connected); cbn; rewrite ?E; auto.
Qed.

Lemma buttons_follow_run (evs : list WindowEvent) :
  buttons_follow (run_window (init, setup_ui) evs).
Proof.
  assert (Hgen : forall w, buttons_follow w -> buttons_follow (run_window w evs)).
  { induction evs as [ | ev evs IH]; intros w Hw; [exact Hw | ].
    apply IH. now apply buttons_follow_handle. }
  apply Hgen. repeat split.
Qed.

(** X14: after any sequence of window events the detect button and the
    clear-region button are enabled exactly when a region is selected, so a
    detection started from the enabled button never ends in the
    "No Region" warning. *)
Theorem detect_button_follows_region (evs : list WindowEvent) :
  let w := run_window (init, setup_ui) evs in
  detect_btn (snd w)
  = match selected_region (fst w) with Some _ => true | None => false end /\
  clear_region_btn (snd w) = detect_btn (snd w) /\
  (detect_btn (snd w) = true ->
   fst (detect_spikes (fst w)) <> warning_no_region).
Proof.
  cbv zeta. destruct (buttons_follow_run evs) as (Hd & Hc & _).
  repeat split; try assumption.
  intros Hon. rewrite Hd in Hon.
  destruct (selected_region (fst (run_window (init, setup_ui) evs)))
    as [region | ] eqn:Hsel; [ | discriminate].
  exact (detect_spikes_with_region _ region Hsel).
Qed.

(** X15: after any sequence of window events the pause button is enabled
    exactly when the connect button reads "Disconnect". *)
Theorem pause_button_follows_connection (evs : list WindowEvent) :
  let w := run_window (init, setup_ui) evs in
  pause_btn (snd w)
  = match connect_btn (snd w) with Disconnect => true | Connect => false end.
Proof.
  cbv zeta. destruct (buttons_follow_run evs) as (_ & _ & Hp). exact Hp.
Qed.

End ButtonFacts.

(** ** Further properties of region selection and measurement *)

Lemma set_measurement_labels_same (st : Analyzer) :
  set_measurement_labels (measurement_labels st) st = st.
Proof. now destruct st. Qed.

Section SelectionMore.

Context {F : scipy_signal.Filters}.

(** Measuring writes the measurement labels and [dc_offset] only. *)
Lemma update_region_measurements_state (st : Analyzer) :
  exists (dc : float) (labels : option Measurements),
    snd (update_region_measurements st)
    = set_measurement_labels labels (set_dc_offset dc st).
Proof.
  assert (Hsame : st = set_measurement_labels (measurement_labels st)
                         (set_dc_offset (dc_offset st) st))
    by (now destruct st).
  unfold update_region_measurements.
  destruct (selected_region st) as [[s e] | ]; [ | eauto].
  destruct (get_region st s e) as [[r st'] | ] eqn:Hr; [ | eauto].
  destruct (get_region_state _ _ _ _ _ Hr) as [dc ->].
  destruct r; cbn [snd]; [eauto | | ];
    exists dc, (measurement_labels st); now destruct st.
Qed.

(** A click is ignored, without any change to the analyzer, when region
    selection mode is off, when it is not a left click, or when no sample
    has been received. *)
Lemma ignored_clicks (st : Analyzer) (button : MouseButton)
        (click_time : float) :
  region_selection_mode st = false \/ button = OtherButton
  \/ get_data st = snapshot_no_data ->
  on_mouse_clicked st button click_time = (None, st).
Proof.
  unfold on_mouse_clicked. intros [H | [H | H]].
  - now rewrite H.
  - subst button. now destruct (negb (region_selection_mode st)).
  - rewrite H. destruct (negb (region_selection_mode st)); [reflexivity | ].
    now destruct button.
Qed.


(** X17: switching region selection mode off forgets a pending first click
    and keeps the committed region; until the mode is switched on again
    every click is ignored. *)
Theorem region_mode_off_forgets_first_click (st : Analyzer) (state : Z)
        (button : MouseButton) (click_time : float) :
  state <> 2%Z ->
  let st' := toggle_region_mode st state in
  _region_start st' = None /\
  selected_region st' = selected_region st /\
  on_mouse_clicked st' button click_time = (None, st').
Proof.
  intros Hstate. cbv zeta.
  assert (Hoff : (state =? 2)%Z = false) by now apply Z.eqb_neq.
  assert (Hst : toggle_region_mode st state
                = set_region_start None (set_region_selection_mode false st)).
  { unfold toggle_region_mode. rewrite Hoff. reflexivity. }
  rewrite Hst. repeat split.
Qed.


End SelectionMore.


Lemma region_mode_off_forgets_first_click_witness :
  _region_start
    (toggle_region_mode
       (snd (on_mouse_clicked (F:=passthrough) selecting_analyzer
                              LeftButton 5%float)) 0)
  = None.
Proof.
  destruct (region_mode_off_forgets_first_click (F:=passthrough)
              (snd (on_mouse_clicked (F:=passthrough) selecting_analyzer
                                     LeftButton 5%float))
              0 LeftButton 0%float ltac:(lia))
    as (H & _).
  exact H.
Defined.


(** ** Further properties of spike detection *)

Lemma py_slice_length {A} (a : list A) (i j : Z) :
  length (py_slice a i j)
  = Nat.min (Z.to_nat (j - i)) (length a - Z.to_nat i).
Proof. unfold py_slice. now rewrite length_firstn, length_skipn. Qed.

(** A peak inside the region always has a non-empty neighbourhood, so it
    always yields a record. *)
Lemma analyze_peak_adds (region_times region_data : list float)
      (min_distance_samples : Z) (acc : list SpikeRecord * list float)
      (peak_idx : nat) :
  (0 <= min_distance_samples)%Z ->
  peak_idx < length region_data ->
  exists record : SpikeRecord,
    spike_time record = nth peak_idx region_times 0%float /\
    analyze_peak region_times region_data min_distance_samples acc peak_idx
    = (fst acc ++ [record], snd acc ++ [spike_time record]).
Proof.
  intros Hd Hp. unfold analyze_peak. cbv zeta.
  set (window := (min_distance_samples / 2)%Z).
  assert (Hw : (0 <= window)%Z) by (subst window; apply Z.div_pos; lia).
  match goal with
  | |- context [(0 <? length ?l)] =>
      assert (Hlocal : (0 <? length l) = true)
  end.
  { apply Nat.ltb_lt. rewrite py_slice_length. lia. }
  rewrite Hlocal. eexists (Build_SpikeRecord _ _ _ _).
  split; reflexivity.
Qed.

Lemma analyze_peaks_records (region_times region_data : list float)
      (min_distance_samples : Z) (peaks : list nat) :
  (0 <= min_distance_samples)%Z ->
  forall acc : list SpikeRecord * list float,
    (forall p, In p peaks -> p < length region_data) ->
    let result := fold_left (analyze_peak region_times region_data
                                          min_distance_samples) peaks acc in
    map spike_time (fst result)
    = map spike_time (fst acc)
      ++ map (fun p => nth p region_times 0%float) peaks /\
    snd result
    = snd acc ++ map (fun p => nth p region_times 0%float) peaks.
Proof.
  intros Hd. induction peaks as [ | p peaks IH]; intros acc Hin; cbv zeta.
  - cbn. now rewrite !app_nil_r.
  - cbn [fold_left].
    destruct (analyze_peak_adds region_times region_data min_distance_samples
                                acc p Hd (Hin p (or_introl eq_refl)))
      as (record & Htime & ->).
    destruct (IH (fst acc ++ [record], snd acc ++ [spike_time record])
                 (fun q Hq => Hin q (or_intror Hq))) as [H1 H2].
    cbv zeta in H1, H2. rewrite H1, H2. cbn [fst snd].
    rewrite map_app. cbn [map]. rewrite Htime, <- !app_assoc.
    split; reflexivity.
Qed.

Section DetectionMore.

Context {F : scipy_signal.Filters}.


(** Detection writes the spikes, the markers, the count label and
    [dc_offset] only. *)
Lemma detect_spikes_outcome (st : Analyzer) :
  match fst (detect_spikes st) with
  | results_dialog spikes =>
      detected_spikes (snd (detect_spikes st)) = spikes /\
      spike_count_label (snd (detect_spikes st)) = Some (length spikes) /\
      spike_markers (snd (detect_spikes st)) = map spike_time spikes
  | _ =>
      detected_spikes (snd (detect_spikes st)) = detected_spikes st /\
      spike_count_label (snd (detect_spikes st)) = spike_count_label st /\
      spike_markers (snd (detect_spikes st)) = spike_markers st
  end.
Proof.
  unfold detect_spikes.
  destruct (selected_region st) as [[s e] | ]; [ | now repeat split].
  destruct (get_region st s e) as [[r st'] | ] eqn:Hr; [ | now repeat split].
  destruct (get_region_state _ _ _ _ _ Hr) as [dc ->].
  destruct r as [region_times region_data | | ]; try now repeat split.
  destruct (py_int _) as [d | ]; [ | now repeat split].
  destruct (scipy_signal.find_peaks _ _ _) as [peaks | ];
    [ | now repeat split].
  destruct (length peaks =? 0); [now repeat split | ].
  cbn [detected_spikes spike_markers set_detected_spikes set_spike_markers].
  match goal with
  | |- context [fold_left ?f peaks ([], [])] =>
      assert (Hmarkers :
                forall acc,
                  snd acc = map spike_time (fst acc) ->
                  snd (fold_left f peaks acc)
                  = map spike_time (fst (fold_left f peaks acc)));
      [ | specialize (Hmarkers ([], []) eq_refl);
          destruct (fold_left f peaks ([], [])) as [spikes markers] ]
  end.
  - induction peaks as [ | p peaks IH]; intros acc Hacc; [exact Hacc | ].
    cbn [fold_left]. apply IH. unfold analyze_peak. cbv zeta.
    destruct (0 <? length _); [ | exact Hacc].
    cbn [fst snd]. rewrite map_app, Hacc. reflexivity.
  - cbn [fst snd] in Hmarkers. subst markers. repeat split.
Qed.

(** X20: detection stores what it shows.  When it ends with the results
    dialog, the stored sequence is exactly the sequence shown (a
    replacement, whatever was stored before), the count label is its
    length and there is one marker per record, at the record's time; in
    every other case the stored sequence, the label and the markers are
    left as they were. *)
Theorem detect_spikes_stores_what_it_shows (st : Analyzer) :
  match fst (detect_spikes st) with
  | results_dialog spikes =>
      detected_spikes (snd (detect_spikes st)) = spikes /\
      spike_count_label (snd (detect_spikes st)) = Some (length spikes) /\
      spike_markers (snd (detect_spikes st)) = map spike_time spikes
  | _ =>
      detected_spikes (snd (detect_spikes st)) = detected_spikes st /\
      spike_count_label (snd (detect_spikes st)) = spike_count_label st /\
      spike_markers (snd (detect_spikes st)) = spike_markers st
  end.
Proof. apply detect_spikes_outcome. Qed.

(** X21: one record per accepted peak.  When the peak finder accepts the
    peaks [peaks] (at least one) in the region, detection ends with the
    results dialog, and the records shown and stored are as many as the
    peaks, in the order of the peaks, each at the region time of its
    peak. *)
Theorem detect_spikes_one_record_per_peak
        (st st' : Analyzer) (start_time end_time : float)
        (region_times region_data : list float)
        (min_distance_samples : Z) (peaks : list nat) :
  selected_region st = Some (start_time, end_time) ->
  get_region st start_time end_time
  = Some (in_region region_times region_data, st') ->
  py_int (min_distance_spin st * np.float_of_Z sample_rate)%float
  = inl min_distance_samples ->
  scipy_signal.find_peaks (map PrimFloat.abs region_data) (threshold_spin st)
                          min_distance_samples = Some peaks ->
  peaks <> [] ->
  exists spikes : list SpikeRecord,
    fst (detect_spikes st) = results_dialog spikes /\
    detected_spikes (snd (detect_spikes st)) = spikes /\
    length spikes = length peaks /\
    map spike_time spikes = map (fun p => nth p region_times 0%float) peaks.
Proof.
  intros Hsel Hreg Hint Hpeaks Hne.
  destruct (get_region_state _ _ _ _ _ Hreg) as [dc ->].
  assert (Hd : (0 <= min_distance_samples)%Z).
  { unfold scipy_signal.find_peaks in Hpeaks.
    destruct (min_distance_samples <? 1)%Z eqn:E; [discriminate | ].
    apply Z.ltb_ge in E. lia. }
  assert (Hin : forall p, In p peaks -> p < length region_data).
  { intros p Hp.
    destruct (PeakFacts.find_peaks_height _ _ _ _ p Hpeaks Hp) as [Hlt _].
    now rewrite length_map in Hlt. }
  destruct (analyze_peaks_records region_times region_data
              min_distance_samples peaks Hd ([], []) Hin) as [Htimes _].
  cbv zeta in Htimes. cbn [fst map app] in Htimes.
  unfold detect_spikes. rewrite Hsel, Hreg.
  change (threshold_spin (set_dc_offset dc st)) with (threshold_spin st).
  change (min_distance_spin (set_dc_offset dc st)) with (min_distance_spin st).
  rewrite Hint, Hpeaks.
  replace (length peaks =? 0) with false
    by (destruct peaks; [congruence | reflexivity]).
  cbn [detected_spikes spike_markers set_detected_spikes set_spike_markers].
  destruct (fold_left _ peaks ([], [])) as [spikes markers].
  cbn [fst] in Htimes. exists spikes. cbn [fst snd].
  repeat split; [ | exact Htimes].
  rewrite <- (length_map spike_time), Htimes. apply length_map.
Qed.

(** X22: clicks, measurements, detection and the display refresh never
    touch the acquisition path: the two buffers, the pause flag and the
    frozen snapshot are as before. *)
Theorem analysis_never_touches_acquisition
        (st : Analyzer) (button : MouseButton) (click_time : float)
        (window_size : float) (auto_scroll auto_zoom : bool) :
  acquisition (snd (on_mouse_clicked st button click_time)) = acquisition st /\
  acquisition (snd (update_region_measurements st)) = acquisition st /\
  acquisition (snd (detect_spikes st)) = acquisition st /\
  acquisition (snd (update_plot st window_size auto_scroll auto_zoom))
  = acquisition st.
Proof.
  repeat split.
  - apply on_mouse_clicked_acquisition.
  - apply update_region_measurements_acquisition.
  - apply detect_spikes_acquisition.
  - destruct (update_plot_state st window_size auto_scroll auto_zoom)
      as [dc ->].
    reflexivity.
Qed.

End DetectionMore.

(** The run at threshold 20 of the session behind [analyzer_with_region]:
    the one peak of the region, at index 2, gives one record at 0.2 ms. *)
Lemma detect_spikes_one_record_per_peak_witness :
  exists spikes : list SpikeRecord,
    fst (detect_spikes (F:=passthrough)
           (set_threshold_spin 20%float analyzer_with_region))
    = results_dialog spikes /\
    map spike_time spikes = [0.0002%float].
Proof.
  destruct (detect_spikes_one_record_per_peak (F:=passthrough)
              (set_threshold_spin 20%float analyzer_with_region)
              (set_dc_offset 16%float
                 (set_threshold_spin 20%float analyzer_with_region))
              0%float 1%float
              [0; 0.0001; 0.0002; 0.00030000000000000003; 0.0004]%float
              [-6; -6; 24; -6; -6]%float 500%Z [2]
              eq_refl eq_refl eq_refl eq_refl ltac:(discriminate))
    as (spikes & Hout & _ & _ & Htimes).
  exists spikes. split; [exact Hout | exact Htimes].
Defined.

(** ** Invariants of the window *)

Section WindowFacts.

Context {F : scipy_signal.Filters}.

Lemma handle_window_analyzer (st : Analyzer) (b : Buttons) (ev : WindowEvent) :
  fst (handle_window (st, b) ev)
  = match ev with
    | Handled ev' => handle st ev'
    | PlotTimer window_size auto_scroll auto_zoom =>
        snd (update_plot st window_size auto_scroll auto_zoom)
    | ConnectClicked _ _ => st
    | ConnectionChanged _ => st
    end.
Proof. destruct ev as [[ ] | | | ]; reflexivity. Qed.

Lemma aligned_handle_window (w : Analyzer * Buttons) (ev : WindowEvent) :
  aligned (fst w) -> aligned (fst (handle_window w ev)).
Proof.
  destruct w as [st b]. rewrite handle_window_analyzer. cbn [fst].
  intros H. destruct ev as [ev | window_size auto_scroll auto_zoom | | ];
    try exact H.
  - now apply aligned_handle.
  - destruct (update_plot_state st window_size auto_scroll auto_zoom)
      as [dc ->].
    exact (aligned_acquisition st (set_dc_offset dc st) eq_refl H).
Qed.

(** X23: whatever happens to the window (batches, pause, clear, clicks,
    detection, refresh, connection changes), the two channels keep the same
    length, within the capacity of 300,000, and every snapshot handed to
    analysis has as many amplitudes as times. *)
Theorem channels_stay_aligned (evs : list WindowEvent) :
  let st := fst (run_window (init, setup_ui) evs) in
  length (deque.items (data_buffer st)) = length (deque.items (time_buffer st)) /\
  (Z.of_nat (length (deque.items (data_buffer st))) <= max_samples)%Z /\
  forall data times,
    get_data st = snapshot data times -> length data = length times.
Proof.
  cbv zeta.
  assert (Hrun : aligned (fst (run_window (init, setup_ui) evs))).
  { assert (Hgen : forall w, aligned (fst w) ->
                             aligned (fst (run_window w evs))).
    { induction evs as [ | ev evs IH]; intros w Hw; [exact Hw | ].
      apply IH. now apply aligned_handle_window. }
    apply Hgen. unfold aligned. repeat split; cbv; discriminate. }
  destruct Hrun as (_ & _ & Hlen & Hcap & Hfrozen).
  repeat split; try assumption.
  intros data times. unfold get_data.
  destruct (paused _); destruct (frozen_data _) as [d | ];
    destruct (frozen_time _) as [t | ];
    try contradiction;
    try (destruct (deque.len _ =? 0); [discriminate | ]);
    intros [= <- <-]; assumption.
Qed.

(** Detection writes the spikes, the markers, the count label and
    [dc_offset] only. *)
Lemma detect_spikes_state (st : Analyzer) :
  exists dc spikes markers label,
    snd (detect_spikes st)
    = set_spike_count_label label
        (set_spike_markers markers
           (set_detected_spikes spikes (set_dc_offset dc st))).
Proof.
  assert (Hsame : forall dc,
             set_dc_offset dc st
             = set_spike_count_label (spike_count_label st)
                 (set_spike_markers (spike_markers st)
                    (set_detected_spikes (detected_spikes st)
                       (set_dc_offset dc st))))
    by (intros dc; now destruct st).
  assert (Hst : st
                = set_spike_count_label (spike_count_label st)
                    (set_spike_markers (spike_markers st)
                       (set_detected_spikes (detected_spikes st)
                          (set_dc_offset (dc_offset st) st))))
    by (now destruct st).
  unfold detect_spikes.
  destruct (selected_region st) as [[s e] | ];
    [ | cbn [snd]; eexists _, _, _, _; exact Hst].
  destruct (get_region st s e) as [[r st'] | ] eqn:Hr;
    [ | cbn [snd]; eexists _, _, _, _; exact Hst].
  destruct (get_region_state _ _ _ _ _ Hr) as [dc ->].
  destruct r as [region_times region_data | | ];
    try (cbn [snd]; eexists _, _, _, _; exact (Hsame dc)).
  destruct (py_int _) as [d | ];
    [ | cbn [snd]; eexists _, _, _, _; exact (Hsame dc)].
  destruct (scipy_signal.find_peaks _ _ _) as [peaks | ];
    [ | cbn [snd]; eexists _, _, _, _; exact (Hsame dc)].
  destruct (length peaks =? 0);
    [cbn [snd]; eexists _, _, _, _; exact (Hsame dc) | ].
  destruct (fold_left _ _ _) as [spikes markers]. cbn [snd].
  exists dc, spikes, markers, (Some (length spikes)). now destruct st.
Qed.

(** The committed region is ordered and a pending first click is a
    number. *)
Lemma ordered_handle_window (w : Analyzer * Buttons) (ev : WindowEvent) :
  match ev with
  | Handled (MouseClicked _ t) => PrimFloat.is_nan t = false
  | _ => True
  end ->
  let ordered (st : Analyzer) :=
    match selected_region st with
    | Some (s, e) => (s <=? e)%float = true
    | None => True
    end /\
    match _region_start st with
    | Some a => PrimFloat.is_nan a = false
    | None => True
    end in
  ordered (fst w) -> ordered (fst (handle_window w ev)).
Proof.
  destruct w as [st b]. intros Hev ordered. subst ordered. cbv beta.
  rewrite handle_window_analyzer. cbn [fst]. intros [Hsel Hstart].
  destruct ev as [ev | window_size auto_scroll auto_zoom | | ];
    [ | | split; assumption | split; assumption ].
  - destruct ev as [samples timestamp | | | | state | state | state | state
                    | value | button click_time | ]; cbn [handle].
    + unfold on_data_received. destruct (negb (paused st)); split; assumption.
    + unfold toggle_pause.
      destruct (paused (set_paused (negb (paused st)) st)); split; assumption.
    + rewrite selected_region_cleared.
      split; [exact I | ]. now destruct st.
    + split; exact I.
    + unfold toggle_region_mode.
      destruct (negb (region_selection_mode _)); split;
        try assumption; exact I.
    + split; assumption.
    + split; assumption.
    + split; assumption.
    + split; assumption.
    + unfold on_mouse_clicked.
      destruct (negb (region_selection_mode st)); [split; assumption | ].
      destruct button; [ | split; assumption].
      destruct (get_data st) as [data times | | ];
        [ | split; assumption | split; assumption].
      destruct (length times =? 0); [split; assumption | ].
      destruct (_region_start st) as [a | ] eqn:Ea.
      * match goal with
        | |- context [update_region_measurements ?s] =>
            destruct (update_region_measurements_state s) as (dc & labels & ->)
        end.
        split; [ | exact I].
        exact (py_min_le_py_max a click_time Hstart Hev).
      * split; [exact Hsel | exact Hev].
    + destruct (detect_spikes_state st) as (dc & spikes & markers & label & ->).
      split; assumption.
  - destruct (update_plot_state st window_size auto_scroll auto_zoom)
      as [dc ->].
    split; assumption.
Qed.

(** X24: as long as every click lands on a time that is a number, the
    committed region of every reachable state satisfies start <= end. *)
Theorem selected_region_is_ordered (evs : list WindowEvent) :
  Forall (fun ev => match ev with
                    | Handled (MouseClicked _ t) => PrimFloat.is_nan t = false
                    | _ => True
                    end) evs ->
  match selected_region (fst (run_window (init, setup_ui) evs)) with
  | Some (s, e) => (s <=? e)%float = true
  | None => True
  end.
Proof.
  intros Hevs.
  assert (Hgen : forall w,
             (match selected_region (fst w) with
              | Some (s, e) => (s <=? e)%float = true
              | None => True
              end /\
              match _region_start (fst w) with
              | Some a => PrimFloat.is_nan a = false
              | None => True
              end) ->
             match selected_region (fst (run_window w evs)) with
             | Some (s, e) => (s <=? e)%float = true
             | None => True
             end).
  { induction Hevs as [ | ev evs Hev Hevs IH]; intros w Hw; [apply Hw | ].
    apply IH. exact (ordered_handle_window w ev Hev Hw). }
  apply Hgen. split; exact I.
Qed.

End WindowFacts.


(** Clicking at 5 s and then at 0 s: the region is (0, 5). *)
Lemma selected_region_is_ordered_witness :
  match selected_region
          (fst (run_window (F:=passthrough) (init, setup_ui)
                  [Handled (DataReceived [2048; 2050]%Z 0%float);
                   Handled (RegionModeToggled 2);
                   Handled (MouseClicked LeftButton 5%float);
                   Handled (MouseClicked LeftButton 0%float)])) with
  | Some (s, e) => (s <=? e)%float = true
  | None => True
  end.
Proof.
  apply (selected_region_is_ordered (F:=passthrough)).
  repeat constructor.
Defined.
